(** * train_toy.py: the training script, as a shallow embedding

    The script is orchestration over a tensor framework: it parses the
    command line, persists the arguments, builds loaders, a model, a loss,
    an optimizer and a scheduler, then runs the epoch loop.  Everything the
    script itself decides (control flow, guards, file names, the running
    average) is embedded from the source; everything the framework decides
    (tensors, autograd, optimizers, float arithmetic, the data loaders) is an
    operation of the [Torch] interface below. *)

From Stdlib Require Import ZArith Lia Ascii String.
From stdpp Require Import base option list strings gmap pretty.

Local Open Scope Z_scope.
Local Open Scope string_scope.
Local Open Scope list_scope.

(** ** Python values *)

(** Python's [float].  The script does no float arithmetic of its own apart
    from one division; the type and the operations it touches are an
    interface. *)
Class PyFloat := {
  float : Type;
  (** [float_lit m k] is the literal [m e k]: the binary64 nearest to
      [m * 10^k] *)
  float_lit : Z -> Z -> float;
  (** [float('Inf')] *)
  float_inf : float;
  (** [x < y] *)
  float_lt : float -> float -> bool;
  (** [x / n] for an int [n <> 0] *)
  float_truediv : float -> Z -> float;
  (** [format(x, '')], what an f-string's [{x}] prints *)
  float_repr : float -> string;
  (** [format(x, '0.4f')] *)
  float_format_04f : float -> string;
}.

(** The values [json.dump] receives from [vars(args)]. *)
Inductive pyval `{PyFloat} :=
| PyNone
| PyBool (b : bool)
| PyInt (n : Z)
| PyFloatV (x : float)
| PyStr (s : string).

Inductive exn :=
| ValueError (msg : string)
| AssertionError (msg : string)
| ZeroDivisionError (msg : string)
| AttributeError (msg : string)
| KeyError (key : string)
| SystemExit (code : Z).

(** ** pathlib *)

Inductive path :=
| Path (s : string)
| Join (parent : path) (name : string).

Definition is_absolute (s : string) : bool :=
  match s with
  | String "/"%char _ => true
  | _ => false
  end.

(** [p / name]: an absolute right operand replaces the left one. *)
Definition path_div (p : path) (name : string) : path :=
  if is_absolute name then Path name else Join p name.

(** ** get_parser *)

(** What the user typed: an option that takes a value is [Some v] when it was
    given, a flag is [true] when it was present.  Values are already
    converted by the option's [type=]. *)
Record cmdline `{PyFloat} := {
  cl_datadir : option string;
  cl_rundir : option string;
  cl_comment : option string;
  cl_view : option string;
  cl_multilabel : bool;
  cl_no_fours : bool;
  cl_seed : option Z;
  cl_model : option string;
  cl_pretrained : bool;
  cl_weighted_loss : bool;
  cl_seq : option string;
  cl_hidden_dim : option Z;
  cl_optimizer : option string;
  cl_learning_rate : option float;
  cl_weight_decay : option float;
  cl_dropout : option float;
  cl_batch_size : option Z;
  cl_epochs : option Z;
  cl_max_patience : option Z;
  cl_verbose : bool;
  cl_plot : bool;
  cl_factor : option float;
  cl_toy : bool;
  cl_rgb : bool;
  cl_workers : option Z;
  cl_extension : option string;
  cl_fix_num_slices : bool;
  cl_num_slices : option Z;
  cl_fixing_method : option string;
  cl_normalize : option string;
  cl_scale : option Z;
  cl_horizontal_flip : bool;
  cl_rotate : option Z;
  cl_shift : option Z;
  cl_reverse : bool;
}.

(** The [argparse.Namespace] that [parse_args] returns. *)
Record Namespace `{PyFloat} := {
  datadir : string;
  rundir : string;
  comment : option string;
  view : string;
  multilabel : bool;
  no_fours : bool;
  seed : Z;
  model : string;
  pretrained : bool;
  weighted_loss : bool;
  seq : option string;
  hidden_dim : option Z;
  optimizer : string;
  learning_rate : float;
  weight_decay : float;
  dropout : float;
  batch_size : Z;
  epochs : Z;
  max_patience : Z;
  verbose : bool;
  plot : bool;
  factor : float;
  toy : bool;
  rgb : bool;
  workers : Z;
  extension : string;
  fix_num_slices : bool;
  num_slices : Z;
  fixing_method : string;
  normalize : string;
  scale : Z;
  horizontal_flip : bool;
  rotate : Z;
  shift : Z;
  reverse : bool;
}.

Section Parser.
Context {Fl : PyFloat}.

(** [action="store_true"]: default [False], [True] when present. *)
Definition store_true (present : bool) : bool := present.

(** [action="store_false"]: default [True], [False] when present. *)
Definition store_false (present : bool) : bool := negb present.

(** [parse_args]: a missing required option ends in [parser.error], which
    exits with status 2. *)
Definition parse_args (c : cmdline) : exn + Namespace :=
  match cl_datadir c, cl_rundir c with
  | None, _ | _, None => inl (SystemExit 2)
  | Some dd, Some rd =>
    inr {|
      datadir := dd;
      rundir := rd;
      comment := cl_comment c;
      view := default "sagittal" (cl_view c);
      multilabel := store_true (cl_multilabel c);
      no_fours := store_true (cl_no_fours c);
      seed := default 123 (cl_seed c);
      model := default "alexnet" (cl_model c);
      pretrained := store_true (cl_pretrained c);
      weighted_loss := store_true (cl_weighted_loss c);
      seq := cl_seq c;
      hidden_dim := cl_hidden_dim c;
      optimizer := default "adam" (cl_optimizer c);
      learning_rate := default (float_lit 1 (-3)) (cl_learning_rate c);
      weight_decay := default (float_lit 1 (-2)) (cl_weight_decay c);
      dropout := default (float_lit 0 0) (cl_dropout c);
      batch_size := default 1 (cl_batch_size c);
      epochs := default 30 (cl_epochs c);
      max_patience := default 5 (cl_max_patience c);
      verbose := store_false (cl_verbose c);
      plot := store_true (cl_plot c);
      factor := default (float_lit 3 (-1)) (cl_factor c);
      toy := store_true (cl_toy c);
      rgb := store_true (cl_rgb c);
      workers := default 8 (cl_workers c);
      extension := default "npy" (cl_extension c);
      fix_num_slices := store_true (cl_fix_num_slices c);
      num_slices := default 35 (cl_num_slices c);
      fixing_method := default "inner" (cl_fixing_method c);
      normalize := default "none" (cl_normalize c);
      scale := default 256 (cl_scale c);
      horizontal_flip := store_true (cl_horizontal_flip c);
      rotate := default 0 (cl_rotate c);
      shift := default 0 (cl_shift c);
      reverse := store_true (cl_reverse c);
    |}
  end.


Definition py_opt_str (o : option string) : pyval :=
  match o with Some s => PyStr s | None => PyNone end.

Definition py_opt_int (o : option Z) : pyval :=
  match o with Some n => PyInt n | None => PyNone end.

(** [vars(args)]: the namespace's attribute dictionary, in insertion
    order. *)
Definition vars (a : Namespace) : list (string * pyval) :=
  [ ("datadir", PyStr (datadir a));
    ("rundir", PyStr (rundir a));
    ("comment", py_opt_str (comment a));
    ("view", PyStr (view a));
    ("multilabel", PyBool (multilabel a));
    ("no_fours", PyBool (no_fours a));
    ("seed", PyInt (seed a));
    ("model", PyStr (model a));
    ("pretrained", PyBool (pretrained a));
    ("weighted_loss", PyBool (weighted_loss a));
    ("seq", py_opt_str (seq a));
    ("hidden_dim", py_opt_int (hidden_dim a));
    ("optimizer", PyStr (optimizer a));
    ("learning_rate", PyFloatV (learning_rate a));
    ("weight_decay", PyFloatV (weight_decay a));
    ("dropout", PyFloatV (dropout a));
    ("batch_size", PyInt (batch_size a));
    ("epochs", PyInt (epochs a));
    ("max_patience", PyInt (max_patience a));
    ("verbose", PyBool (verbose a));
    ("plot", PyBool (plot a));
    ("factor", PyFloatV (factor a));
    ("toy", PyBool (toy a));
    ("rgb", PyBool (rgb a));
    ("workers", PyInt (workers a));
    ("extension", PyStr (extension a));
    ("fix_num_slices", PyBool (fix_num_slices a));
    ("num_slices", PyInt (num_slices a));
    ("fixing_method", PyStr (fixing_method a));
    ("normalize", PyStr (normalize a));
    ("scale", PyInt (scale a));
    ("horizontal_flip", PyBool (horizontal_flip a));
    ("rotate", PyInt (rotate a));
    ("shift", PyInt (shift a));
    ("reverse", PyBool (reverse a)) ].

(** [args.verbose = value] *)
Definition set_verbose (value : bool) (a : Namespace) : Namespace :=
  {| datadir := datadir a; rundir := rundir a; comment := comment a;
     view := view a; multilabel := multilabel a; no_fours := no_fours a;
     seed := seed a; model := model a; pretrained := pretrained a;
     weighted_loss := weighted_loss a; seq := seq a;
     hidden_dim := hidden_dim a; optimizer := optimizer a;
     learning_rate := learning_rate a; weight_decay := weight_decay a;
     dropout := dropout a; batch_size := batch_size a; epochs := epochs a;
     max_patience := max_patience a; verbose := value; plot := plot a;
     factor := factor a; toy := toy a; rgb := rgb a; workers := workers a;
     extension := extension a; fix_num_slices := fix_num_slices a;
     num_slices := num_slices a; fixing_method := fixing_method a;
     normalize := normalize a; scale := scale a;
     horizontal_flip := horizontal_flip a; rotate := rotate a;
     shift := shift a; reverse := reverse a |}.

(** [args.seq = value] *)
Definition set_seq (value : option string) (a : Namespace) : Namespace :=
  {| datadir := datadir a; rundir := rundir a; comment := comment a;
     view := view a; multilabel := multilabel a; no_fours := no_fours a;
     seed := seed a; model := model a; pretrained := pretrained a;
     weighted_loss := weighted_loss a; seq := value;
     hidden_dim := hidden_dim a; optimizer := optimizer a;
     learning_rate := learning_rate a; weight_decay := weight_decay a;
     dropout := dropout a; batch_size := batch_size a; epochs := epochs a;
     max_patience := max_patience a; verbose := verbose a; plot := plot a;
     factor := factor a; toy := toy a; rgb := rgb a; workers := workers a;
     extension := extension a; fix_num_slices := fix_num_slices a;
     num_slices := num_slices a; fixing_method := fixing_method a;
     normalize := normalize a; scale := scale a;
     horizontal_flip := horizontal_flip a; rotate := rotate a;
     shift := shift a; reverse := reverse a |}.
End Parser.

(** ** The tensor framework *)

(** What the script calls in [torch], [torch.nn], [torch.optim] and
    [lr_scheduler].  Each operation is typed by the state it reads and
    writes: a forward pass reads the weights and may replace the recurrent
    hidden state, [backward] accumulates into the gradient buffers, and only
    [optimizer.step()] writes weights. *)
Class Torch `{PyFloat} := {
  (** a scalar [Variable]: a loss together with its autograd graph *)
  tensor : Type;
  batch : Type;
  inputs : Type;
  labels : Type;
  preds : Type;
  (** the parameters and buffers, what [state_dict()] holds *)
  weights : Type;
  (** the [.grad] buffers of the parameters *)
  grads : Type;
  hidden : Type;
  criterion : Type;
  model_class : Type;
  optim_class : Type;
  (** an optimizer's own state: learning rate, moments, hyperparameters *)
  optim_state : Type;
  sched_state : Type;
  (** [x + t] for a float [x] and a tensor [t] ([Variable.__radd__]) *)
  float_radd : float -> tensor -> tensor;
  (** [s + t] *)
  tensor_add : tensor -> tensor -> tensor;
  (** [t / n] for an int [n]; never raises *)
  tensor_truediv : tensor -> Z -> tensor;
  (** [t.data[0]] *)
  tensor_item : tensor -> float;
  (** [torch.cat((a, b))] on predictions and on labels *)
  cat_preds : preds -> preds -> preds;
  cat_labels : labels -> labels -> labels;
  (** [model.forward(x)] under the module's weights, mode and hidden state *)
  forward : weights -> bool -> option hidden -> inputs -> preds * option hidden;
  (** [model.init_hidden()] *)
  init_hidden : weights -> hidden;
  (** [criterion(predictions, labels)] *)
  criterion_call : criterion -> preds -> labels -> tensor;
  MultiLabelSoftMarginLoss : criterion;
  BCEWithLogitsLoss : criterion;
  (** [optimizer.zero_grad()] *)
  zero_grad : grads -> grads;
  (** [loss.backward()] *)
  backward : tensor -> grads -> grads;
  (** [optimizer.step()] *)
  optimizer_step : optim_state -> weights -> grads -> optim_state * weights;
  Adam : optim_class;
  RMSprop : optim_class;
  (** [cls(model.parameters(), lr, weight_decay=wd)] *)
  optimizer_init : optim_class -> weights -> float -> float -> optim_state;
  (** [ReduceLROnPlateau(optimizer, patience=, factor=, threshold=)] *)
  scheduler_init : optim_state -> Z -> float -> float -> sched_state;
  (** [scheduler.step(metric)]: may lower the optimizer's learning rate *)
  scheduler_step :
    sched_state -> float -> optim_state -> sched_state * optim_state;
}.

(** An [nn.Module] instance. *)
Record module `{Torch} := {
  m_weights : weights;
  m_grads : grads;
  m_training : bool;
  m_hidden : option hidden;
}.

Record dataset `{Torch} := {
  num_classes : Z;
  dataset_view : string;
  dataset_weighted_loss : criterion;
}.

(** A [DataLoader]: its dataset and the batches one iteration yields. *)
Record loader `{Torch} := {
  loader_dataset : dataset;
  loader_batches : list batch;
}.

(** [tensorboardX.SummaryWriter(comment=...)] *)
Record SummaryWriter := { writer_comment : string }.

(** The modules of this repository that the script imports and that are not
    part of the sources at hand ([data.loader], [models], [utils_toy]),
    together with the two library calls of [__main__] that read the
    environment. *)
Class Repo `{Torch} := {
  (** [data.loader.load_data(args)]: train, valid, test and rad loaders *)
  load_data : Namespace -> loader * loader * loader * loader;
  (** [models.model_dict]: the registry of architectures by name *)
  model_dict : gmap string model_class;
  (** [cls(args, num_classes)] and, with [Some (hidden_dim, dropout)],
      [cls(args, num_classes, hidden_dim, dropout)] *)
  model_init :
    model_class -> Namespace -> Z -> option (option Z * float) -> module;
  (** [utils_toy.transform_data(batch, use_gpu, train)]: the images by view
      and the labels *)
  transform_data : batch -> bool -> bool -> (string -> inputs) * labels;
  (** [os.path.basename(os.path.normpath(p))] *)
  basename_normpath : string -> string;
  (** [str(datetime.now() - start_time)] as read at the start of an epoch *)
  time_passed : nat -> string;
}.

(** ** Effects *)

Section Script.
Context {Fl : PyFloat} {T : Torch} {R : Repo}.

(** What the script does to the outside world, in program order. *)
Inductive event :=
| EvNumpySeed (n : Z)
| EvCudaManualSeedAll (n : Z)
| EvManualSeed (n : Z)
| EvJsonDump (file : path) (obj : list (string * pyval)) (indent : Z)
| EvMkdir (dir : path)
| EvSummaryWriter (comment : string)
| EvLoadData
| EvModelInit (name : string) (classes : Z)
| EvPrint (line : string)
| EvCuda
| EvOptimizerInit (name : string)
| EvSchedulerInit
| EvModuleTrain
| EvModuleEval
| EvZeroGrad
| EvInitHidden
| EvForward (x : inputs)
| EvCriterion (predictions : preds) (target : labels)
| EvBackward
| EvOptimizerStep
| EvPlot (xs : list nat) (ys : list float) (label : string)
| EvLegend
| EvSavefig (file : path)
| EvPlotClose
| EvSchedulerStep (metric : float)
| EvSave (state_dict : weights) (file : path).

(** A computation emits events and then returns or raises. *)
Definition M (A : Type) : Type := (list event * (exn + A))%type.

Definition ret {A} (a : A) : M A := ([], inr a).

Definition bind {A B} (m : M A) (k : A -> M B) : M B :=
  match m with
  | (l, inl e) => (l, inl e)
  | (l, inr a) => let '(l', r) := k a in (l ++ l', r)
  end.

Definition emit (e : event) : M unit := ([e], inr tt).

Definition raise {A} (e : exn) : M A := ([], inl e).

Definition events {A} (m : M A) : list event := fst m.

Definition result {A} (m : M A) : exn + A := snd m.
End Script.

(** The computations form a monad; stdpp's notations [x ← m; k] and
    [m;; k] sequence them. *)
Global Instance M_ret `{Repo} : MRet M := λ A, ret.
Global Instance M_bind `{Repo} : MBind M := λ A B k m, bind m k.

(** ** run_model *)

Section Program.
Context {Fl : PyFloat} {T : Torch} {R : Repo}.

Definition with_weights (w : weights) (m : module) : module :=
  {| m_weights := w; m_grads := m_grads m;
     m_training := m_training m; m_hidden := m_hidden m |}.

Definition with_grads (g : grads) (m : module) : module :=
  {| m_weights := m_weights m; m_grads := g;
     m_training := m_training m; m_hidden := m_hidden m |}.

Definition with_training (b : bool) (m : module) : module :=
  {| m_weights := m_weights m; m_grads := m_grads m;
     m_training := b; m_hidden := m_hidden m |}.

Definition with_hidden (h : option hidden) (m : module) : module :=
  {| m_weights := m_weights m; m_grads := m_grads m;
     m_training := m_training m; m_hidden := h |}.

(** The value held by [avg_loss]: the float [0.0] it starts as, or the
    tensor it becomes once a batch loss has been added. *)
Inductive pynum :=
| NumFloat (x : float)
| NumTensor (t : tensor).

(** [a += t] for a tensor [t] *)
Definition py_iadd (a : pynum) (t : tensor) : pynum :=
  match a with
  | NumFloat x => NumTensor (float_radd x t)
  | NumTensor s => NumTensor (tensor_add s t)
  end.

(** [a /= n] for an int [n] *)
Definition py_itruediv (a : pynum) (n : Z) : M pynum :=
  match a with
  | NumFloat x =>
    if decide (n = 0) then raise (ZeroDivisionError "float division by zero")
    else mret (NumFloat (float_truediv x n))
  | NumTensor t => mret (NumTensor (tensor_truediv t n))
  end.

(** [a.data[0]] *)
Definition py_data0 (a : pynum) : M float :=
  match a with
  | NumFloat _ =>
    raise (AttributeError "'float' object has no attribute 'data'")
  | NumTensor t => mret (tensor_item t)
  end.

(** The locals of [run_model] that the batch loop updates, and the two
    objects it mutates.  [complete_predictions] and [complete_labels] are
    set together and are one field. *)
Record pass_state := {
  ps_model : module;
  ps_optimizer : option optim_state;
  avg_loss : pynum;
  num_batches : Z;
  complete : option (preds * labels);
}.

(** [for x in xs: s = body(s, x)] *)
Fixpoint for_each {S A} (body : S -> A -> M S) (xs : list A) (s : S) : M S :=
  match xs with
  | [] => mret s
  | x :: xs' => s' ← body s x; for_each body xs' s'
  end.

(** The body of [for batch in loader].  The cast [inputs.float()] is part
    of [forward] here. *)
Definition run_batch (ld : loader) (crit : criterion) (train : bool)
    (verbose : bool) (seq : option string)
    (st : pass_state) (b : batch) : M pass_state :=
  let mdl := ps_model st in
  let opt := ps_optimizer st in
  mdl ← (if train then
           match opt with
           | None =>
             raise (AttributeError
                      "'NoneType' object has no attribute 'zero_grad'")
           | Some _ =>
             emit EvZeroGrad;;
             mret (with_grads (zero_grad (m_grads mdl)) mdl)
           end
         else mret mdl);
  mdl ← (if decide (seq = Some "lstm") then
           emit EvInitHidden;;
           mret (with_hidden (Some (init_hidden (m_weights mdl))) mdl)
         else mret mdl);
  let '(img_dict, lbls) := transform_data b true train in
  let inp := img_dict (dataset_view (loader_dataset ld)) in
  emit (EvForward inp);;
  let '(predictions, h) :=
    forward (m_weights mdl) (m_training mdl) (m_hidden mdl) inp in
  let mdl := with_hidden h mdl in
  let compl :=
    match complete st with
    | None => (predictions, lbls)
    | Some (cp, cl) => (cat_preds cp predictions, cat_labels cl lbls)
    end in
  emit (EvCriterion predictions lbls);;
  let batch_loss := criterion_call crit predictions lbls in
  let avg := py_iadd (avg_loss st) batch_loss in
  '(mdl, opt) ←
    (if train then
       (if verbose then
          emit (EvPrint ("Training batch loss: "
                         +:+ float_format_04f (tensor_item batch_loss)))
        else mret tt);;
       emit EvBackward;;
       let mdl := with_grads (backward batch_loss (m_grads mdl)) mdl in
       match opt with
       | None =>
         raise (AttributeError "'NoneType' object has no attribute 'step'")
       | Some o =>
         emit EvOptimizerStep;;
         let '(o', w') := optimizer_step o (m_weights mdl) (m_grads mdl) in
         mret (with_weights w' mdl, Some o')
       end
     else mret (mdl, opt));
  mret {| ps_model := mdl; ps_optimizer := opt; avg_loss := avg;
          num_batches := num_batches st + 1; complete := Some compl |}.

(** [run_model]: one pass over a loader.  Python returns the float and
    leaves the model and the optimizer mutated; here the pass returns all
    three. *)
Definition run_model (mdl : module) (ld : loader) (crit : criterion)
    (writer : option SummaryWriter) (epoch : option nat)
    (train : bool) (opt : option optim_state) (verbose : bool)
    (seq : option string) (multilabel : bool)
    : M (module * option optim_state * float) :=
  mdl ← (if train then emit EvModuleTrain;; mret (with_training true mdl)
         else emit EvModuleEval;; mret (with_training false mdl));
  st ← for_each (run_batch ld crit train verbose seq) (loader_batches ld)
         {| ps_model := mdl; ps_optimizer := opt;
            avg_loss := NumFloat (float_lit 0 0); num_batches := 0;
            complete := None |};
  avg ← py_itruediv (avg_loss st) (num_batches st);
  r ← py_data0 avg;
  mret (ps_model st, ps_optimizer st, r).

(** ** train *)

(** [optimizers = {'adam': optim.Adam, 'rmsprop': optim.RMSprop}] *)
Definition optimizers : gmap string optim_class :=
  {[ "adam" := Adam; "rmsprop" := RMSprop ]}.

(** [seq_models = ['max', 'mean', 'lstm']] *)
Definition seq_models : list string := ["max"; "mean"; "lstm"].

(** The locals of [train] that the epoch loop updates, and the three
    objects it mutates. *)
Record loop_state := {
  ls_model : module;
  ls_optimizer : optim_state;
  ls_scheduler : sched_state;
  train_losses : list float;
  valid_losses : list float;
  epochs_seen : list nat;
  best_val_loss : float;
}.

(** [f'val{val_loss}_train{train_loss}_epoch{epoch+1}'] *)
Definition checkpoint_name (val_loss train_loss : float) (epoch : nat)
    : string :=
  "val" +:+ float_repr val_loss +:+ "_train" +:+ float_repr train_loss
  +:+ "_epoch" +:+ pretty (epoch + 1)%nat.

(** The body of [for epoch in range(args.epochs)]. *)
Definition run_epoch (args : Namespace) (writer : option SummaryWriter)
    (train_loader valid_loader : loader)
    (train_criterion valid_criterion : criterion)
    (st : loop_state) (epoch : nat) : M loop_state :=
  emit (EvPrint ("Starting epoch " +:+ pretty epoch
                 +:+ ". Time passed: " +:+ time_passed epoch));;
  '(mdl, opt, train_loss) ←
    run_model (ls_model st) train_loader train_criterion writer
      (Some epoch) true (Some (ls_optimizer st)) (verbose args) (seq args)
      (multilabel args);
  let opt := default (ls_optimizer st) opt in
  emit (EvPrint ("Average training loss " +:+ float_format_04f train_loss));;
  '(mdl, _, val_loss) ←
    run_model mdl valid_loader valid_criterion writer
      (Some epoch) false None false (seq args) (multilabel args);
  emit (EvPrint ("Average validation loss "
                 +:+ float_format_04f val_loss));;
  let tls := train_losses st ++ [train_loss] in
  let vls := valid_losses st ++ [val_loss] in
  let eps := epochs_seen st ++ [epoch] in
  (if plot args then
     let plot_dir := path_div (Path (rundir args)) "plots" in
     emit (EvPlot eps tls "train");;
     emit (EvPlot eps vls "valid");;
     emit EvLegend;;
     emit (EvSavefig (path_div plot_dir "loss"));;
     emit EvPlotClose
   else mret tt);;
  emit (EvSchedulerStep val_loss);;
  let '(sch, opt) := scheduler_step (ls_scheduler st) val_loss opt in
  let best :=
    if float_lt val_loss (best_val_loss st) then val_loss
    else best_val_loss st in
  let file_name := checkpoint_name val_loss train_loss epoch in
  let save_path := path_div (Path (rundir args)) file_name in
  emit (EvSave (m_weights mdl) save_path);;
  mret {| ls_model := mdl; ls_optimizer := opt; ls_scheduler := sch;
          train_losses := tls; valid_losses := vls; epochs_seen := eps;
          best_val_loss := best |}.

(** [range(n)] for a Python int [n]: empty when [n <= 0]. *)
Definition range (n : Z) : list nat := List.seq 0 (Z.to_nat n).

(** [a == b == c] *)
Definition chained_eq (a b c : Z) : bool :=
  bool_decide (a = b) && bool_decide (b = c).

(** [if args.model == 'lrcn' or args.model == 'mtolstm': args.seq = 'lstm'] *)
Definition lstm_args (args : Namespace) : Namespace :=
  if decide (model args = "lrcn" ∨ model args = "mtolstm")
  then set_seq (Some "lstm") args else args.

(** The two calls of the registry entry: the [lrcn] architecture also
    takes the hidden dimension and the dropout. *)
Definition build_model (args : Namespace) (cls : model_class)
    (classes : Z) : module :=
  if decide (model args = "lrcn") then
    model_init cls args classes (Some (hidden_dim args, dropout args))
  else model_init cls args classes None.

(** The training and the validation loss function. *)
Definition criteria (args : Namespace) (train_loader valid_loader : loader)
    : criterion * criterion :=
  if weighted_loss args then
    (dataset_weighted_loss (loader_dataset train_loader),
     dataset_weighted_loss (loader_dataset valid_loader))
  else if multilabel args then
    (MultiLabelSoftMarginLoss, MultiLabelSoftMarginLoss)
  else (BCEWithLogitsLoss, BCEWithLogitsLoss).

(** The locals as the epoch loop finds them. *)
Definition loop_init (mdl : module) (opt : optim_state)
    (sch : sched_state) : loop_state :=
  {| ls_model := mdl; ls_optimizer := opt; ls_scheduler := sch;
     train_losses := []; valid_losses := []; epochs_seen := [];
     best_val_loss := float_inf |}.

Definition train (args : Namespace) (writer : option SummaryWriter)
    : M unit :=
  emit EvLoadData;;
  let '(train_loader, valid_loader, test_loader, rad_loader) :=
    load_data args in
  (if decide (model_dict !! model args = None) then
     raise (ValueError (model args +:+ " model not supported"))
   else mret tt);;
  let args := lstm_args args in
  (if chained_eq (num_classes (loader_dataset train_loader))
                 (num_classes (loader_dataset valid_loader))
                 (num_classes (loader_dataset test_loader))
   then mret tt
   else raise (AssertionError "Different number of classes in data splits"));;
  cls ← from_option mret (raise (KeyError (model args)))
          (model_dict !! model args);
  emit (EvModelInit (model args)
          (num_classes (loader_dataset train_loader)));;
  let mdl :=
    build_model args cls (num_classes (loader_dataset train_loader)) in
  emit (EvPrint ("num classes:  "
                 +:+ pretty (num_classes (loader_dataset train_loader))));;
  emit EvCuda;;
  let '(train_criterion, valid_criterion) :=
    criteria args train_loader valid_loader in
  (if decide (optimizers !! optimizer args = None) then
     raise (ValueError (optimizer args +:+ " optimizer not supported"))
   else mret tt);;
  ocls ← from_option mret (raise (KeyError (optimizer args)))
           (optimizers !! optimizer args);
  emit (EvOptimizerInit (optimizer args));;
  let opt :=
    optimizer_init ocls (m_weights mdl) (learning_rate args)
      (weight_decay args) in
  emit EvSchedulerInit;;
  let sch :=
    scheduler_init opt (max_patience args) (factor args)
      (float_lit 1 (-4)) in
  for_each
    (run_epoch args writer train_loader valid_loader
       train_criterion valid_criterion)
    (range (epochs args))
    (loop_init mdl opt sch);;
  mret tt.

(** ** __main__ *)

(** [args.comment if args.comment else "_" + basename(normpath(rundir))]:
    [None] and the empty string are both false. *)
Definition writer_comment_of (args : Namespace) : string :=
  match comment args with
  | Some (String c s) => String c s
  | Some EmptyString | None => "_" +:+ basename_normpath (rundir args)
  end.

Definition main (c : cmdline) : M unit :=
  args ← match parse_args c with inl e => raise e | inr a => mret a end;
  let args := set_verbose false args in
  emit (EvNumpySeed (seed args));;
  emit (EvCudaManualSeedAll (seed args));;
  emit (EvManualSeed (seed args));;
  emit (EvJsonDump (path_div (Path (rundir args)) "args.json")
          (vars args) 4);;
  (if plot args then
     emit (EvMkdir (path_div (Path (rundir args)) "plots"))
   else mret tt);;
  let cmt := writer_comment_of args in
  emit (EvSummaryWriter cmt);;
  let writer := {| writer_comment := cmt |} in
  (if decide (view args = "all") then
     raise (ValueError "Multiview not yet implemented for train script")
   else mret tt);;
  train args (Some writer).
End Program.

(** ** A small concrete framework

    Fixed-point numbers stand in for floats and tensors (one unit is
    [10^-4]), a batch is an input with its label, and a model has a single
    integer weight.  The instance makes the script executable inside Rocq. *)

Module Toy.
Inductive toy_float :=
| Fin (n : Z)
| Inf.

Definition toy_lt (x y : toy_float) : bool :=
  match x, y with
  | Fin a, Fin b => bool_decide (a < b)
  | Fin _, Inf => true
  | Inf, _ => false
  end.

Definition toy_repr (x : toy_float) : string :=
  match x with
  | Fin a => pretty a
  | Inf => "inf"
  end.

#[export] Instance toy_pyfloat : PyFloat := {|
  float := toy_float;
  float_lit m k := Fin (m * 10 ^ (k + 4));
  float_inf := Inf;
  float_lt := toy_lt;
  float_truediv x n := match x with Fin a => Fin (a / n) | Inf => Inf end;
  float_repr := toy_repr;
  float_format_04f := toy_repr;
|}.

#[export] Instance toy_torch : Torch := {|
  tensor := Z;
  batch := Z * Z;
  inputs := Z;
  labels := Z;
  preds := Z;
  weights := Z;
  grads := Z;
  hidden := unit;
  criterion := Z;
  model_class := unit;
  optim_class := bool;
  optim_state := Z;
  sched_state := nat;
  float_radd x t := match x with Fin a => a + t | Inf => t end;
  tensor_add := Z.add;
  tensor_truediv := Z.div;
  tensor_item := Fin;
  cat_preds := Z.add;
  cat_labels := Z.add;
  forward w _ h x := (w * x, h);
  init_hidden _ := tt;
  criterion_call c p l := c * Z.abs (p - l);
  MultiLabelSoftMarginLoss := 2;
  BCEWithLogitsLoss := 1;
  zero_grad _ := 0;
  backward t g := g + t;
  optimizer_step o w g := (o + 1, w - g);
  Adam := true;
  RMSprop := false;
  optimizer_init _ _ _ _ := 0;
  scheduler_init _ _ _ _ := 0%nat;
  scheduler_step s _ o := (S s, o);
|}.

Definition toy_loader (classes : Z) (batches : list (Z * Z)) : loader :=
  {| loader_dataset :=
       {| num_classes := classes; dataset_view := "sagittal";
          dataset_weighted_loss := 3 |};
     loader_batches := batches |}.

(** The collaborators, by the class counts of the four splits and the
    batches of the train and valid loaders. *)
Definition toy_repo (classes : Z * Z * Z * Z)
    (train_batches valid_batches : list (Z * Z)) : Repo := {|
  load_data _ :=
    let '(c1, c2, c3, c4) := classes in
    (toy_loader c1 train_batches, toy_loader c2 valid_batches,
     toy_loader c3 [], toy_loader c4 []);
  model_dict := {[ "alexnet" := tt; "lrcn" := tt ]};
  model_init _ _ classes _ :=
    {| m_weights := classes; m_grads := 0; m_training := true;
       m_hidden := None |};
  transform_data b _ _ := (λ _, b.1, b.2);
  basename_normpath p := p;
  time_passed _ := "0:00:00";
|}.

(** [--datadir data --rundir runs --epochs 2], with [--model],
    [--optimizer] and [--view] as given. *)
Definition toy_cmdline_with (mdl opt vw : option string) : cmdline := {|
  cl_datadir := Some "data"; cl_rundir := Some "runs"; cl_comment := None;
  cl_view := vw; cl_multilabel := false; cl_no_fours := false;
  cl_seed := None; cl_model := mdl; cl_pretrained := false;
  cl_weighted_loss := false; cl_seq := None; cl_hidden_dim := None;
  cl_optimizer := opt; cl_learning_rate := None; cl_weight_decay := None;
  cl_dropout := None; cl_batch_size := None; cl_epochs := Some 2;
  cl_max_patience := None; cl_verbose := false; cl_plot := false;
  cl_factor := None; cl_toy := false; cl_rgb := false; cl_workers := None;
  cl_extension := None; cl_fix_num_slices := false; cl_num_slices := None;
  cl_fixing_method := None; cl_normalize := None; cl_scale := None;
  cl_horizontal_flip := false; cl_rotate := None; cl_shift := None;
  cl_reverse := false |}.

Definition toy_cmdline : cmdline := toy_cmdline_with None None None.

(** The namespace of a command line that parses. *)
Definition namespace_of (c : cmdline) : Namespace :=
  match parse_args c with
  | inr a => a
  | inl _ =>
    {| datadir := ""; rundir := ""; comment := None; view := "";
       multilabel := false; no_fours := false; seed := 0; model := "";
       pretrained := false; weighted_loss := false; seq := None;
       hidden_dim := None; optimizer := ""; learning_rate := Inf;
       weight_decay := Inf; dropout := Inf; batch_size := 0; epochs := 0;
       max_patience := 0; verbose := false; plot := false; factor := Inf;
       toy := false; rgb := false; workers := 0; extension := "";
       fix_num_slices := false; num_slices := 0; fixing_method := "";
       normalize := ""; scale := 0; horizontal_flip := false; rotate := 0;
       shift := 0; reverse := false |}
  end.

Definition toy_args : Namespace := namespace_of toy_cmdline.

Definition args_with (mdl opt vw : option string) : Namespace :=
  namespace_of (toy_cmdline_with mdl opt vw).

Definition toy_module : module :=
  {| m_weights := 2; m_grads := 0; m_training := true; m_hidden := None |}.

(** Three worlds: the splits agree; only the rad split differs; the valid
    split differs. *)
Definition repo_ok : Repo := toy_repo (2, 2, 2, 2) [(1, 2); (3, 4)] [(5, 6)].
Definition repo_rad : Repo := toy_repo (2, 2, 2, 3) [(1, 2); (3, 4)] [(5, 6)].
Definition repo_valid : Repo := toy_repo (2, 3, 2, 2) [(1, 2); (3, 4)] [(5, 6)].

(** The toy command line with [--epochs n], and with [--plot]. *)
Definition toy_cmdline_epochs (n : Z) : cmdline :=
  {| cl_datadir := Some "data"; cl_rundir := Some "runs"; cl_comment := None;
     cl_view := None; cl_multilabel := false; cl_no_fours := false;
     cl_seed := None; cl_model := None; cl_pretrained := false;
     cl_weighted_loss := false; cl_seq := None; cl_hidden_dim := None;
     cl_optimizer := None; cl_learning_rate := None; cl_weight_decay := None;
     cl_dropout := None; cl_batch_size := None; cl_epochs := Some n;
     cl_max_patience := None; cl_verbose := false; cl_plot := false;
     cl_factor := None; cl_toy := false; cl_rgb := false; cl_workers := None;
     cl_extension := None; cl_fix_num_slices := false; cl_num_slices := None;
     cl_fixing_method := None; cl_normalize := None; cl_scale := None;
     cl_horizontal_flip := false; cl_rotate := None; cl_shift := None;
     cl_reverse := false |}.

Definition toy_cmdline_plot : cmdline :=
  {| cl_datadir := Some "data"; cl_rundir := Some "runs"; cl_comment := None;
     cl_view := None; cl_multilabel := false; cl_no_fours := false;
     cl_seed := None; cl_model := None; cl_pretrained := false;
     cl_weighted_loss := false; cl_seq := None; cl_hidden_dim := None;
     cl_optimizer := None; cl_learning_rate := None; cl_weight_decay := None;
     cl_dropout := None; cl_batch_size := None; cl_epochs := Some 2;
     cl_max_patience := None; cl_verbose := false; cl_plot := true;
     cl_factor := None; cl_toy := false; cl_rgb := false; cl_workers := None;
     cl_extension := None; cl_fix_num_slices := false; cl_num_slices := None;
     cl_fixing_method := None; cl_normalize := None; cl_scale := None;
     cl_horizontal_flip := false; cl_rotate := None; cl_shift := None;
     cl_reverse := false |}.

(** Two more worlds: a train loader, and a valid loader, that yields no
    batch. *)
Definition repo_no_train : Repo := toy_repo (2, 2, 2, 2) [] [(5, 6)].
End Toy.

(** ** Reading a trace *)

Section Observations.
Context {Fl : PyFloat} {T : Torch} {R : Repo}.

(** The [(predictions, labels)] of the criterion calls, in order. *)
Definition criterion_calls (evs : list event) : list (preds * labels) :=
  omap (λ e, match e with EvCriterion p l => Some (p, l) | _ => None end)
    evs.

(** The calls that write gradients or weights. *)
Definition is_update (e : event) : bool :=
  match e with
  | EvZeroGrad | EvBackward | EvOptimizerStep => true
  | _ => false
  end.

(** The calls [run_model] can make. *)
Definition is_pass_event (e : event) : bool :=
  match e with
  | EvModuleTrain | EvModuleEval | EvZeroGrad | EvInitHidden
  | EvForward _ | EvCriterion _ _ | EvPrint _ | EvBackward
  | EvOptimizerStep => true
  | _ => false
  end.

(** The framework calls of the batch loop, without their arguments. *)
Inductive call :=
| CallZeroGrad
| CallInitHidden
| CallForward
| CallCriterion
| CallBackward
| CallOptimizerStep.

Definition call_of (e : event) : option call :=
  match e with
  | EvZeroGrad => Some CallZeroGrad
  | EvInitHidden => Some CallInitHidden
  | EvForward _ => Some CallForward
  | EvCriterion _ _ => Some CallCriterion
  | EvBackward => Some CallBackward
  | EvOptimizerStep => Some CallOptimizerStep
  | _ => None
  end.

Definition calls (evs : list event) : list call := omap call_of evs.

(** The calls one batch takes: forward pass and loss computation always,
    gradient reset before and backpropagation and optimizer step after when
    training, a fresh hidden state for an LSTM. *)
Definition batch_calls (train : bool) (seq : option string) : list call :=
  (if train then [CallZeroGrad] else [])
  ++ (if decide (seq = Some "lstm") then [CallInitHidden] else [])
  ++ [CallForward; CallCriterion]
  ++ (if train then [CallBackward; CallOptimizerStep] else []).

(** The metrics passed to [scheduler.step], in order. *)
Definition scheduler_steps (evs : list event) : list float :=
  omap (λ e, match e with EvSchedulerStep v => Some v | _ => None end) evs.

(** The files written by [torch.save], in order. *)
Definition saved_files (evs : list event) : list path :=
  omap (λ e, match e with EvSave _ f => Some f | _ => None end) evs.

(** The losses of the criterion calls of a pass, in order. *)
Definition batch_losses (crit : criterion) (evs : list event)
    : list tensor :=
  map (λ c, criterion_call crit c.1 c.2) (criterion_calls evs).

(** [0.0 + t + t1 + ... + tn], added left to right *)
Definition loss_sum (t : tensor) (ts : list tensor) : tensor :=
  foldl tensor_add (float_radd (float_lit 0 0) t) ts.

(** The sum divided once by the number of losses, read as a float. *)
Definition loss_mean (t : tensor) (ts : list tensor) : float :=
  tensor_item (tensor_truediv (loss_sum t ts) (Z.of_nat (length (t :: ts)))).

(** The locals of [run_model] as the batch loop finds them. *)
Definition pass_init (mdl : module) (opt : option optim_state)
    (train : bool) : pass_state :=
  {| ps_model := with_training train mdl; ps_optimizer := opt;
     avg_loss := NumFloat (float_lit 0 0); num_batches := 0;
     complete := None |}.

(** [model.train()] or [model.eval()] *)
Definition mode_event (train : bool) : event :=
  if train then EvModuleTrain else EvModuleEval.

(** What follows the loop: the division and the [.data[0]] access. *)
Definition finish (st : pass_state)
    : exn + (module * option optim_state * float) :=
  match avg_loss st with
  | NumFloat _ =>
    if decide (num_batches st = 0)
    then inl (ZeroDivisionError "float division by zero")
    else inl (AttributeError "'float' object has no attribute 'data'")
  | NumTensor t =>
    inr (ps_model st, ps_optimizer st,
         tensor_item (tensor_truediv t (num_batches st)))
  end.

(** What the [if args.plot:] block of an epoch draws. *)
Definition plot_events (args : Namespace) (eps : list nat)
    (tls vls : list float) : list event :=
  if plot args then
    [EvPlot eps tls "train"; EvPlot eps vls "valid"; EvLegend;
     EvSavefig (path_div (path_div (Path (rundir args)) "plots") "loss");
     EvPlotClose]
  else [].

(** The epochs from index [i] on, one after the other.  Each epoch is: the
    start line, a training pass over the train loader, its average, an
    evaluation pass over the valid loader on the model the training pass
    left, its average, the plot when asked for, one scheduler step on the
    validation loss, one save of the weights under the checkpoint name.
    The relation collects the trace and the [(train_loss, val_loss)] of
    each epoch. *)
Inductive epochs_run (args : Namespace) (writer : option SummaryWriter)
    (tl vl : loader) (tc vc : criterion)
    : nat -> loop_state -> list event -> list (float * float)
      -> loop_state -> Prop :=
| epochs_done i st : epochs_run args writer tl vl tc vc i st [] [] st
| epochs_step i st ev_t m1 o1 tloss ev_v m2 vloss sch o2 rest losses st' :
    run_model (ls_model st) tl tc writer (Some i) true
      (Some (ls_optimizer st)) (verbose args) (seq args) (multilabel args)
    = (ev_t, inr (m1, Some o1, tloss)) ->
    run_model m1 vl vc writer (Some i) false None false (seq args)
      (multilabel args)
    = (ev_v, inr (m2, None, vloss)) ->
    scheduler_step (ls_scheduler st) vloss o1 = (sch, o2) ->
    epochs_run args writer tl vl tc vc (S i)
      {| ls_model := m2; ls_optimizer := o2; ls_scheduler := sch;
         train_losses := train_losses st ++ [tloss];
         valid_losses := valid_losses st ++ [vloss];
         epochs_seen := epochs_seen st ++ [i];
         best_val_loss :=
           if float_lt vloss (best_val_loss st) then vloss
           else best_val_loss st |}
      rest losses st' ->
    epochs_run args writer tl vl tc vc i st
      (EvPrint ("Starting epoch " +:+ pretty i
                +:+ ". Time passed: " +:+ time_passed i)
       :: ev_t
       ++ EvPrint ("Average training loss " +:+ float_format_04f tloss)
       :: ev_v
       ++ EvPrint ("Average validation loss " +:+ float_format_04f vloss)
       :: plot_events args (epochs_seen st ++ [i])
            (train_losses st ++ [tloss]) (valid_losses st ++ [vloss])
       ++ EvSchedulerStep vloss
       :: EvSave (m_weights m2)
            (Join (Path (rundir args)) (checkpoint_name vloss tloss i))
       :: rest)
      ((tloss, vloss) :: losses) st'.

(** What [train] does between entry and the epoch loop when no guard
    fires. *)
Definition setup_events (args : Namespace) (classes : Z) : list event :=
  [EvLoadData; EvModelInit (model args) classes;
   EvPrint ("num classes:  " +:+ pretty classes); EvCuda;
   EvOptimizerInit (optimizer args); EvSchedulerInit].

(** The locals with which [train] enters the epoch loop. *)
Definition train_init (args : Namespace) (cls : model_class)
    (ocls : optim_class) (classes : Z) : loop_state :=
  let mdl := build_model (lstm_args args) cls classes in
  let opt :=
    optimizer_init ocls (m_weights mdl) (learning_rate args)
      (weight_decay args) in
  loop_init mdl opt
    (scheduler_init opt (max_patience args) (factor args)
       (float_lit 1 (-4))).

(** The text after the last occurrence of [c] in [s]. *)
Fixpoint after_last (c : ascii) (s : string) : option string :=
  match s with
  | EmptyString => None
  | String a s' =>
    match after_last c s' with
    | Some r => Some r
    | None => if decide (a = c) then Some s' else None
    end
  end.

(** The epoch field of a checkpoint name: what follows the last [h]. *)
Definition checkpoint_epoch (name : string) : option string :=
  after_last "h" name.

(** The command line [c] with [--verbose] present or absent. *)
Definition set_cl_verbose (present : bool) (c : cmdline) : cmdline :=
  {| cl_datadir := cl_datadir c; cl_rundir := cl_rundir c;
     cl_comment := cl_comment c; cl_view := cl_view c;
     cl_multilabel := cl_multilabel c; cl_no_fours := cl_no_fours c;
     cl_seed := cl_seed c; cl_model := cl_model c;
     cl_pretrained := cl_pretrained c;
     cl_weighted_loss := cl_weighted_loss c; cl_seq := cl_seq c;
     cl_hidden_dim := cl_hidden_dim c; cl_optimizer := cl_optimizer c;
     cl_learning_rate := cl_learning_rate c;
     cl_weight_decay := cl_weight_decay c; cl_dropout := cl_dropout c;
     cl_batch_size := cl_batch_size c; cl_epochs := cl_epochs c;
     cl_max_patience := cl_max_patience c; cl_verbose := present;
     cl_plot := cl_plot c; cl_factor := cl_factor c; cl_toy := cl_toy c;
     cl_rgb := cl_rgb c; cl_workers := cl_workers c;
     cl_extension := cl_extension c;
     cl_fix_num_slices := cl_fix_num_slices c;
     cl_num_slices := cl_num_slices c;
     cl_fixing_method := cl_fixing_method c;
     cl_normalize := cl_normalize c; cl_scale := cl_scale c;
     cl_horizontal_flip := cl_horizontal_flip c; cl_rotate := cl_rotate c;
     cl_shift := cl_shift c; cl_reverse := cl_reverse c |}.

(** The class counts that [train] compares agree. *)
Definition classes_agree (tl vl tel : loader) : Prop :=
  num_classes (loader_dataset tl) = num_classes (loader_dataset vl) ∧
  num_classes (loader_dataset vl) = num_classes (loader_dataset tel).

(** What [__main__] does before the view guard, on the namespace as it
    stands after [args.verbose = False]. *)
Definition main_prefix (args : Namespace) : list event :=
  [EvNumpySeed (seed args); EvCudaManualSeedAll (seed args);
   EvManualSeed (seed args);
   EvJsonDump (Join (Path (rundir args)) "args.json") (vars args) 4]
  ++ (if plot args then [EvMkdir (Join (Path (rundir args)) "plots")]
      else [])
  ++ [EvSummaryWriter (writer_comment_of args)].

(** An exception raised by a [raise] or [assert] statement of the script,
    as opposed to one raised inside an operation or by [argparse]. *)
Definition is_explicit (e : exn) : bool :=
  match e with
  | ValueError _ | AssertionError _ => true
  | _ => false
  end.

(** The lines written by [print], in order. *)
Definition printed (evs : list event) : list string :=
  omap (λ e, match e with EvPrint line => Some line | _ => None end) evs.

(** The line a verbose training pass prints for a batch loss. *)
Definition batch_line (t : tensor) : string :=
  "Training batch loss: " +:+ float_format_04f (tensor_item t).

(** The three lines of an epoch with the given losses. *)
Definition epoch_lines (epoch : nat) (l : float * float) : list string :=
  ["Starting epoch " +:+ pretty epoch +:+ ". Time passed: "
   +:+ time_passed epoch;
   "Average training loss " +:+ float_format_04f l.1;
   "Average validation loss " +:+ float_format_04f l.2].

(** The calls into [matplotlib.pyplot]. *)
Definition is_plot_event (e : event) : bool :=
  match e with
  | EvPlot _ _ _ | EvLegend | EvSavefig _ | EvPlotClose => true
  | _ => false
  end.

(** The series drawn by [plt.plot], in order. *)
Definition plotted (evs : list event)
    : list (list nat * list float * string) :=
  omap (λ e, match e with
             | EvPlot xs ys label => Some (xs, ys, label)
             | _ => None
             end) evs.

(** The files written by [plt.savefig], in order. *)
Definition savefig_files (evs : list event) : list path :=
  omap (λ e, match e with EvSavefig f => Some f | _ => None end) evs.


(** What [train] can do to the outside world: load the data, build the
    model, the optimizer and the scheduler, run passes, print, step the
    scheduler, save, and draw when [plotting]. *)
Definition is_train_event (plotting : bool) (e : event) : bool :=
  match e with
  | EvLoadData | EvModelInit _ _ | EvCuda | EvOptimizerInit _
  | EvSchedulerInit | EvSchedulerStep _ | EvSave _ _ => true
  | EvPlot _ _ _ | EvLegend | EvSavefig _ | EvPlotClose => plotting
  | _ => is_pass_event e
  end.


(** The state dictionaries written by [torch.save], in order. *)
Definition saved_weights (evs : list event) : list weights :=
  omap (λ e, match e with EvSave w _ => Some w | _ => None end) evs.

(** The directories created by [mkdir], in order. *)
Definition mkdirs (evs : list event) : list path :=
  omap (λ e, match e with EvMkdir d => Some d | _ => None end) evs.

(** The value of [args.seq] that the passes of [train] see. *)
Definition effective_seq (args : Namespace) : option string :=
  if decide (model args = "lrcn" ∨ model args = "mtolstm") then Some "lstm"
  else seq args.

(** The framework calls of one epoch: a training pass over [n] batches, then
    an evaluation pass over [m] batches. *)
Definition epoch_calls (s : option string) (n m : nat) : list call :=
  mjoin (replicate n (batch_calls true s))
  ++ mjoin (replicate m (batch_calls false s)).
End Observations.

(** * Properties *)

Section Facts.
Context {Fl : PyFloat} {T : Torch} {R : Repo}.

(** *** The monad *)

Lemma bind_inr {A B} (m : M A) (k : A -> M B) l a :
  m = (l, inr a) -> bind m k = (l ++ events (k a), result (k a)).
Proof. intros ->. unfold bind, events, result. by destruct (k a). Qed.

Lemma bind_inl {A B} (m : M A) (k : A -> M B) l e :
  m = (l, inl e) -> bind m k = (l, inl e).
Proof. by intros ->. Qed.

Lemma mbind_unfold {A B} (m : M A) (k : A -> M B) : m ≫= k = bind m k.
Proof. done. Qed.

Lemma M_eta {A} (m : M A) : m = (events m, result m).
Proof. by destruct m. Qed.

Lemma for_each_cons_inr {S A} (body : S -> A -> M S) x xs s s' :
  result (body s x) = inr s' ->
  for_each body (x :: xs) s
  = (events (body s x) ++ events (for_each body xs s'),
     result (for_each body xs s')).
Proof.
  intros Hr. simpl. rewrite mbind_unfold.
  apply bind_inr. rewrite (M_eta (body s x)). by rewrite Hr.
Qed.

Lemma for_each_cons_inl {S A} (body : S -> A -> M S) x xs s e :
  result (body s x) = inl e ->
  for_each body (x :: xs) s = (events (body s x), inl e).
Proof.
  intros Hr. simpl. rewrite mbind_unfold.
  apply bind_inl. rewrite (M_eta (body s x)). by rewrite Hr.
Qed.

(** *** One batch *)

Ltac batch_cases :=
  unfold run_batch;
  repeat match goal with
  | |- context [transform_data ?b ?g ?t] =>
      destruct (transform_data b g t) as [? ?] eqn:?
  | |- context [forward ?w ?m ?h ?x] =>
      destruct (forward w m h x) as [? ?] eqn:?
  | |- context [optimizer_step ?o ?w ?g] =>
      destruct (optimizer_step o w g) as [? ?] eqn:?
  | |- context [decide (?s = Some "lstm")] =>
      destruct (decide (s = Some "lstm"))
  | |- context [complete ?st] => destruct (complete st) as [[? ?]|]
  | _ => progress (cbn [mbind M_bind bind mret M_ret ret emit raise app
                        events result fst snd])
  end.

Lemma run_batch_ok ld crit train verbose seq st b :
  (train = true -> is_Some (ps_optimizer st)) ->
  ∃ st' p l,
    result (run_batch ld crit train verbose seq st b) = inr st' ∧
    criterion_calls (events (run_batch ld crit train verbose seq st b))
    = [(p, l)] ∧
    avg_loss st' = py_iadd (avg_loss st) (criterion_call crit p l) ∧
    num_batches st' = num_batches st + 1 ∧
    (train = true -> is_Some (ps_optimizer st')).
Proof.
  intros Hopt. destruct train.
  - destruct (Hopt eq_refl) as [o Ho]. unfold run_batch. rewrite Ho.
    destruct verbose; batch_cases; eexists _, _, _;
      repeat split; try reflexivity; eauto.
  - batch_cases; eexists _, _, _; repeat split; try reflexivity; done.
Qed.

Lemma run_batch_eval_frame ld crit verbose seq st b st' :
  result (run_batch ld crit false verbose seq st b) = inr st' ->
  m_weights (ps_model st') = m_weights (ps_model st) ∧
  m_grads (ps_model st') = m_grads (ps_model st) ∧
  ps_optimizer st' = ps_optimizer st.
Proof. batch_cases; intros [= <-]; done. Qed.

Lemma run_batch_eval_quiet ld crit verbose seq st b :
  filter is_update (events (run_batch ld crit false verbose seq st b)) = [].
Proof. batch_cases; reflexivity. Qed.

Lemma run_batch_train_updates ld crit verbose seq st b :
  is_Some (ps_optimizer st) ->
  filter is_update (events (run_batch ld crit true verbose seq st b))
  = [EvZeroGrad; EvBackward; EvOptimizerStep].
Proof.
  intros [o Ho]. unfold run_batch. rewrite Ho.
  destruct verbose; batch_cases; reflexivity.
Qed.

Lemma run_batch_calls ld crit train verbose seq st b :
  (train = true -> is_Some (ps_optimizer st)) ->
  calls (events (run_batch ld crit train verbose seq st b))
  = batch_calls train seq.
Proof.
  intros Hopt. unfold batch_calls. destruct train.
  - destruct (Hopt eq_refl) as [o Ho]. unfold run_batch. rewrite Ho.
    destruct verbose; batch_cases; reflexivity.
  - batch_cases; reflexivity.
Qed.

Lemma run_batch_pass_events ld crit train verbose seq st b :
  forallb is_pass_event
    (events (run_batch ld crit train verbose seq st b)) = true.
Proof.
  unfold run_batch.
  destruct train, verbose, (ps_optimizer st); batch_cases; reflexivity.
Qed.

Lemma run_batch_raises ld crit train verbose seq st b e :
  result (run_batch ld crit train verbose seq st b) = inl e ->
  train = true ∧ ps_optimizer st = None ∧ ∃ msg, e = AttributeError msg.
Proof.
  unfold run_batch.
  destruct train, verbose, (ps_optimizer st); batch_cases;
    intros [= <-]; eauto.
Qed.

(** *** One pass over the batches *)

Lemma criterion_calls_app (l1 l2 : list event) :
  criterion_calls (l1 ++ l2) = criterion_calls l1 ++ criterion_calls l2.
Proof. apply omap_app. Qed.

Lemma pass_ok ld crit train verbose seq bs : ∀ st,
  (train = true -> is_Some (ps_optimizer st)) ->
  let pass := for_each (run_batch ld crit train verbose seq) bs st in
  ∃ st',
    result pass = inr st' ∧
    length (criterion_calls (events pass)) = length bs ∧
    avg_loss st'
    = foldl py_iadd (avg_loss st) (batch_losses crit (events pass)) ∧
    num_batches st' = num_batches st + Z.of_nat (length bs) ∧
    (train = true -> is_Some (ps_optimizer st')).
Proof.
  induction bs as [|b bs IH]; intros st Hopt pass; subst pass.
  - exists st. cbn. repeat split; [lia | done].
  - destruct (run_batch_ok ld crit train verbose seq st b Hopt)
      as (st1 & p & l & Hr & Hc & Havg & Hn & Hopt1).
    destruct (IH st1 Hopt1) as (st' & Hr' & Hlen & Havg' & Hn' & Hopt').
    exists st'. rewrite (for_each_cons_inr _ _ _ _ _ Hr).
    cbn [events result fst snd].
    unfold batch_losses in *.
    rewrite criterion_calls_app, Hc. cbn [app map foldl length].
    repeat split; [done | by rewrite Hlen | | lia | done].
    by rewrite Havg', Havg.
Qed.

Lemma pass_calls ld crit train verbose seq bs : ∀ st,
  (train = true -> is_Some (ps_optimizer st)) ->
  calls (events (for_each (run_batch ld crit train verbose seq) bs st))
  = mjoin (replicate (length bs) (batch_calls train seq)).
Proof.
  induction bs as [|b bs IH]; intros st Hopt; [done|].
  destruct (run_batch_ok ld crit train verbose seq st b Hopt)
    as (st1 & _ & _ & Hr & _ & _ & _ & Hopt1).
  rewrite (for_each_cons_inr _ _ _ _ _ Hr). cbn [events fst].
  pose proof (run_batch_calls ld crit train verbose seq st b Hopt) as Hb.
  pose proof (IH st1 Hopt1) as Hrest.
  unfold calls in *. by rewrite omap_app, Hb, Hrest.
Qed.

Lemma pass_eval_frame ld crit verbose seq bs : ∀ st st',
  result (for_each (run_batch ld crit false verbose seq) bs st) = inr st' ->
  m_weights (ps_model st') = m_weights (ps_model st) ∧
  m_grads (ps_model st') = m_grads (ps_model st) ∧
  ps_optimizer st' = ps_optimizer st.
Proof.
  induction bs as [|b bs IH]; intros st st'.
  - by intros [= <-].
  - destruct (run_batch_ok ld crit false verbose seq st b)
      as (st1 & _ & _ & Hr & _); [done|].
    rewrite (for_each_cons_inr _ _ _ _ _ Hr). cbn [result snd].
    intros Hr'. apply IH in Hr' as (-> & -> & ->).
    by apply run_batch_eval_frame in Hr.
Qed.

Lemma pass_events_cons ld crit train verbose seq b bs st :
  ∃ rest,
    events (for_each (run_batch ld crit train verbose seq) (b :: bs) st)
    = events (run_batch ld crit train verbose seq st b) ++ rest ∧
    (∀ st', result (run_batch ld crit train verbose seq st b) = inr st' ->
       rest = events (for_each (run_batch ld crit train verbose seq) bs st')) ∧
    (∀ e, result (run_batch ld crit train verbose seq st b) = inl e ->
       rest = []).
Proof.
  destruct (result (run_batch ld crit train verbose seq st b)) as [e|st1]
    eqn:Hr.
  - exists []. rewrite (for_each_cons_inl _ _ _ _ _ Hr), app_nil_r.
    split_and!; [done | by intros ? [=] | done].
  - eexists. rewrite (for_each_cons_inr _ _ _ _ _ Hr).
    split_and!; [done | by intros ? [= <-] | by intros ? [=]].
Qed.

Lemma pass_eval_quiet ld crit verbose seq bs : ∀ st,
  filter is_update
    (events (for_each (run_batch ld crit false verbose seq) bs st)) = [].
Proof.
  induction bs as [|b bs IH]; intros st; [done|].
  destruct (run_batch_ok ld crit false verbose seq st b)
    as (st1 & _ & _ & Hr & _); [done|].
  rewrite (for_each_cons_inr _ _ _ _ _ Hr). cbn [events fst].
  by rewrite filter_app, run_batch_eval_quiet, IH.
Qed.

Lemma pass_train_updates ld crit verbose seq bs : ∀ st,
  is_Some (ps_optimizer st) ->
  filter is_update
    (events (for_each (run_batch ld crit true verbose seq) bs st))
  = mjoin (replicate (length bs) [EvZeroGrad; EvBackward; EvOptimizerStep]).
Proof.
  induction bs as [|b bs IH]; intros st Hopt; [done|].
  destruct (run_batch_ok ld crit true verbose seq st b)
    as (st1 & _ & _ & Hr & _ & _ & _ & Hopt1); [done|].
  rewrite (for_each_cons_inr _ _ _ _ _ Hr). cbn [events fst].
  rewrite filter_app, run_batch_train_updates, IH by auto. done.
Qed.

Lemma pass_pass_events ld crit train verbose seq bs : ∀ st,
  forallb is_pass_event
    (events (for_each (run_batch ld crit train verbose seq) bs st)) = true.
Proof.
  induction bs as [|b bs IH]; intros st; [done|].
  destruct (pass_events_cons ld crit train verbose seq b bs st)
    as (rest & -> & Hok & Herr).
  rewrite forallb_app, run_batch_pass_events. cbn.
  destruct (result (run_batch ld crit train verbose seq st b)) as [e|st1]
    eqn:Hr.
  - by rewrite (Herr e).
  - by rewrite (Hok st1).
Qed.

Lemma pass_raises ld crit train verbose seq bs : ∀ st e,
  result (for_each (run_batch ld crit train verbose seq) bs st) = inl e ->
  ∃ msg, e = AttributeError msg.
Proof.
  induction bs as [|b bs IH]; intros st e; [by intros [=]|].
  destruct (result (run_batch ld crit train verbose seq st b)) as [e1|st1]
    eqn:Hr.
  - rewrite (for_each_cons_inl _ _ _ _ _ Hr). intros [= <-].
    by apply run_batch_raises in Hr as (_ & _ & ?).
  - rewrite (for_each_cons_inr _ _ _ _ _ Hr). apply IH.
Qed.

(** *** run_model *)

Lemma run_model_eq mdl ld crit writer epoch train opt verbose seq ml :
  let pass :=
    for_each (run_batch ld crit train verbose seq) (loader_batches ld)
      (pass_init mdl opt train) in
  run_model mdl ld crit writer epoch train opt verbose seq ml
  = (mode_event train :: events pass,
     match result pass with inl e => inl e | inr st => finish st end).
Proof.
  intros pass. unfold run_model, finish.
  assert (Hp : for_each (run_batch ld crit train verbose seq)
                 (loader_batches ld)
                 {| ps_model := with_training train mdl;
                    ps_optimizer := opt;
                    avg_loss := NumFloat (float_lit 0 0);
                    num_batches := 0; complete := None |} = pass) by done.
  destruct train; cbn [mbind M_bind bind mret M_ret ret emit app];
    rewrite Hp; destruct pass as [l [e|st]];
    cbn [mbind M_bind bind events result fst snd mode_event]; try done;
    unfold py_itruediv, py_data0; destruct (avg_loss st);
    try destruct (decide (num_batches st = 0));
    cbn [mbind M_bind bind raise mret M_ret ret app];
    by rewrite ?app_nil_r.
Qed.

Lemma foldl_py_iadd_tensor ts : ∀ s,
  foldl py_iadd (NumTensor s) ts = NumTensor (foldl tensor_add s ts).
Proof. induction ts as [|t ts IH]; intros s; [done|]. apply IH. Qed.

Lemma run_batch_train_none ld crit verbose seq st b :
  ps_optimizer st = None ->
  ∃ msg, run_batch ld crit true verbose seq st b
         = ([], inl (AttributeError msg)).
Proof. intros Ho. unfold run_batch. rewrite Ho. by eexists. Qed.

Lemma run_model_calls mdl ld crit writer epoch train opt verbose seq ml :
  (train = true -> is_Some opt) ->
  calls (events (run_model mdl ld crit writer epoch train opt verbose seq ml))
  = mjoin (replicate (length (loader_batches ld)) (batch_calls train seq)).
Proof.
  intros Hopt. rewrite run_model_eq. cbn [events fst].
  rewrite <- (pass_calls ld crit train verbose seq (loader_batches ld)
                (pass_init mdl opt train) Hopt).
  by destruct train.
Qed.

(** A pass that is given what it needs returns, and its float is the
    mean of the batch losses. *)
Lemma run_model_ok mdl ld crit writer epoch train opt verbose seq ml :
  loader_batches ld ≠ [] ->
  (train = true -> is_Some opt) ->
  let run := run_model mdl ld crit writer epoch train opt verbose seq ml in
  ∃ m' o' t ts,
    batch_losses crit (events run) = t :: ts ∧
    length (t :: ts) = length (loader_batches ld) ∧
    result run = inr (m', o', loss_mean t ts) ∧
    (train = true -> is_Some o') ∧
    (train = false ->
     o' = opt ∧ m_weights m' = m_weights mdl ∧ m_grads m' = m_grads mdl).
Proof.
  intros Hne Hopt run. subst run. rewrite run_model_eq.
  cbn [events result fst snd].
  destruct (pass_ok ld crit train verbose seq (loader_batches ld)
              (pass_init mdl opt train) Hopt)
    as (st & Hr & Hlen & Havg & Hn & Hopt').
  rewrite Hr.
  assert (Hb : batch_losses crit
                 (mode_event train
                  :: events (for_each (run_batch ld crit train verbose seq)
                               (loader_batches ld)
                               (pass_init mdl opt train)))
               = batch_losses crit
                   (events (for_each (run_batch ld crit train verbose seq)
                              (loader_batches ld)
                              (pass_init mdl opt train))))
    by by destruct train.
  rewrite Hb.
  destruct (batch_losses crit _) as [|t ts] eqn:Hl.
  - unfold batch_losses in Hl. apply fmap_nil_inv in Hl.
    rewrite Hl in Hlen. by destruct (loader_batches ld).
  - exists (ps_model st), (ps_optimizer st), t, ts.
    assert (Hlen' : length (t :: ts) = length (loader_batches ld)).
    { rewrite <- Hlen, <- Hl. unfold batch_losses. by rewrite length_map. }
    split_and!; [done | done | | done |].
    + unfold finish. rewrite Havg. cbn [foldl pass_init avg_loss py_iadd].
      rewrite foldl_py_iadd_tensor. unfold loss_mean, loss_sum.
      rewrite Hn, Hlen'. done.
    + intros ->. apply pass_eval_frame in Hr as (-> & -> & ->). done.
Qed.


(** C9: [run_model] raises the division error exactly when the loader
    yields no batch.  On an empty loader the loop leaves [avg_loss] the
    plain float [0.0] and [num_batches] 0, so [avg_loss /= num_batches]
    divides by zero (and [.data[0]] on that float would fail too); on a
    non-empty loader, given an optimizer when training, it returns. *)
Theorem run_model_empty_loader
    mdl ld crit writer epoch train opt verbose seq ml :
  let run := run_model mdl ld crit writer epoch train opt verbose seq ml in
  let pass :=
    for_each (run_batch ld crit train verbose seq) (loader_batches ld)
      (pass_init mdl opt train) in
  (result run = inl (ZeroDivisionError "float division by zero")
   ↔ loader_batches ld = []) ∧
  (loader_batches ld = [] ->
   ∃ st, result pass = inr st ∧
         avg_loss st = NumFloat (float_lit 0 0) ∧ num_batches st = 0 ∧
         ∃ msg, result (py_data0 (avg_loss st)) = inl (AttributeError msg)) ∧
  (loader_batches ld ≠ [] -> (train = true -> is_Some opt) ->
   ∃ v, result run = inr v).
Proof.
  intros run pass. subst run pass. split_and!.
  - split; [|by intros Hbs; rewrite run_model_eq, Hbs].
    intros Hr. destruct (loader_batches ld) as [|b bs] eqn:Hbs; [done|].
    exfalso.
    assert (Hne : loader_batches ld ≠ []) by by rewrite Hbs.
    destruct train, opt as [o|].
    2:{ rewrite run_model_eq, Hbs in Hr. cbn [result snd] in Hr.
        destruct (run_batch_train_none ld crit verbose seq
                    (pass_init mdl None true) b eq_refl) as [msg Hb].
        rewrite (for_each_cons_inl _ _ _ _ (AttributeError msg)) in Hr
          by by rewrite Hb.
        done. }
    all: edestruct (run_model_ok mdl ld crit writer epoch) as
      (? & ? & ? & ? & _ & _ & Hok & _);
      [exact Hne | | rewrite Hok in Hr; done]; eauto; done.
  - intros ->. eexists. split_and!; [done | done | done |]. by eexists.
  - intros Hne Hopt.
    destruct (run_model_ok mdl ld crit writer epoch train opt verbose seq ml
                Hne Hopt) as (? & ? & ? & ? & _ & _ & Hok & _).
    eauto.
Qed.

(** C6: an evaluation pass ([train=False]) makes no [zero_grad],
    [backward] or [optimizer.step] call and returns the model with the
    weights and gradient buffers it was given and the optimizer untouched;
    a training pass makes the three calls once per batch. *)
Theorem run_model_updates_only_in_training
    mdl ld crit writer epoch opt verbose seq ml :
  let eval := run_model mdl ld crit writer epoch false opt verbose seq ml in
  filter is_update (events eval) = [] ∧
  (∀ m' o' r, result eval = inr (m', o', r) ->
     m_weights m' = m_weights mdl ∧ m_grads m' = m_grads mdl ∧ o' = opt) ∧
  (loader_batches ld ≠ [] -> ∃ v, result eval = inr v) ∧
  (∀ o v,
     filter is_update
       (events (run_model mdl ld crit writer epoch true (Some o) v seq ml))
     = mjoin (replicate (length (loader_batches ld))
                [EvZeroGrad; EvBackward; EvOptimizerStep])).
Proof.
  intros eval. subst eval. split_and!.
  - rewrite run_model_eq. cbn [events fst mode_event].
    rewrite filter_cons. cbn [is_update]. apply pass_eval_quiet.
  - intros m' o' r. rewrite run_model_eq. cbn [result snd].
    destruct (result (for_each _ _ _)) as [e|st] eqn:Hr; [done|].
    apply pass_eval_frame in Hr as (Hw & Hg & Ho).
    unfold finish. destruct (avg_loss st);
      [by destruct (decide (num_batches st = 0))|].
    intros [= <- <- _]. by rewrite Hw, Hg, Ho.
  - intros Hne.
    destruct (run_model_ok mdl ld crit writer epoch false opt verbose seq ml
                Hne) as (? & ? & ? & ? & _ & _ & Hok & _); [done|]. eauto.
  - intros o v. rewrite run_model_eq. cbn [events fst mode_event].
    rewrite filter_cons. cbn [is_update]. by apply pass_train_updates.
Qed.

(** *** The epoch loop *)

Lemma checkpoint_name_relative v t i :
  is_absolute (checkpoint_name v t i) = false.
Proof. done. Qed.

Lemma run_model_train_ok mdl ld crit writer epoch o verbose seq ml :
  loader_batches ld ≠ [] ->
  ∃ evs m' o' r,
    run_model mdl ld crit writer epoch true (Some o) verbose seq ml
    = (evs, inr (m', Some o', r)).
Proof.
  intros Hne.
  destruct (run_model_ok mdl ld crit writer epoch true (Some o) verbose
              seq ml Hne) as (m' & o' & t & ts & _ & _ & Hr & Ho & _);
    [by eauto|].
  destruct (Ho eq_refl) as [o1 ->].
  eexists _, m', o1, _. rewrite <- Hr. apply M_eta.
Qed.

Lemma run_model_eval_ok mdl ld crit writer epoch verbose seq ml :
  loader_batches ld ≠ [] ->
  ∃ evs m' r,
    run_model mdl ld crit writer epoch false None verbose seq ml
    = (evs, inr (m', None, r)).
Proof.
  intros Hne.
  destruct (run_model_ok mdl ld crit writer epoch false None verbose
              seq ml Hne) as (m' & o' & t & ts & _ & _ & Hr & _ & Ho);
    [done|].
  destruct (Ho eq_refl) as (-> & _).
  eexists _, m', _. rewrite <- Hr. apply M_eta.
Qed.

Lemma run_epoch_step args writer tl vl tc vc st i :
  loader_batches tl ≠ [] -> loader_batches vl ≠ [] ->
  ∃ ev_t m1 o1 tloss ev_v m2 vloss sch o2,
    run_model (ls_model st) tl tc writer (Some i) true
      (Some (ls_optimizer st)) (verbose args) (seq args) (multilabel args)
    = (ev_t, inr (m1, Some o1, tloss)) ∧
    run_model m1 vl vc writer (Some i) false None false (seq args)
      (multilabel args)
    = (ev_v, inr (m2, None, vloss)) ∧
    scheduler_step (ls_scheduler st) vloss o1 = (sch, o2) ∧
    run_epoch args writer tl vl tc vc st i
    = (EvPrint ("Starting epoch " +:+ pretty i
                +:+ ". Time passed: " +:+ time_passed i)
       :: ev_t
       ++ EvPrint ("Average training loss " +:+ float_format_04f tloss)
       :: ev_v
       ++ EvPrint ("Average validation loss " +:+ float_format_04f vloss)
       :: plot_events args (epochs_seen st ++ [i])
            (train_losses st ++ [tloss]) (valid_losses st ++ [vloss])
       ++ [EvSchedulerStep vloss;
           EvSave (m_weights m2)
             (Join (Path (rundir args)) (checkpoint_name vloss tloss i))],
       inr {| ls_model := m2; ls_optimizer := o2; ls_scheduler := sch;
              train_losses := train_losses st ++ [tloss];
              valid_losses := valid_losses st ++ [vloss];
              epochs_seen := epochs_seen st ++ [i];
              best_val_loss :=
                if float_lt vloss (best_val_loss st) then vloss
                else best_val_loss st |}).
Proof.
  intros Htl Hvl.
  destruct (run_model_train_ok (ls_model st) tl tc writer (Some i)
              (ls_optimizer st) (verbose args) (seq args) (multilabel args)
              Htl) as (ev_t & m1 & o1 & tloss & Ht).
  destruct (run_model_eval_ok m1 vl vc writer (Some i) false (seq args)
              (multilabel args) Hvl) as (ev_v & m2 & vloss & Hv).
  destruct (scheduler_step (ls_scheduler st) vloss o1) as [sch o2] eqn:Hs.
  exists ev_t, m1, o1, tloss, ev_v, m2, vloss, sch, o2.
  split_and!; [done | done | done |].
  unfold run_epoch. cbn [mbind M_bind bind emit].
  rewrite Ht. cbn [mbind M_bind bind emit default from_option id].
  rewrite Hv. cbn [mbind M_bind bind emit].
  unfold plot_events. destruct (plot args);
    cbn [mbind M_bind bind emit mret M_ret ret app]; rewrite Hs;
    cbn [mbind M_bind bind emit mret M_ret ret app].
  all: reflexivity.
Qed.

Lemma run_epochs_ok args writer tl vl tc vc n : ∀ i st,
  loader_batches tl ≠ [] -> loader_batches vl ≠ [] ->
  ∃ evs losses st',
    for_each (run_epoch args writer tl vl tc vc) (List.seq i n) st
    = (evs, inr st') ∧
    epochs_run args writer tl vl tc vc i st evs losses st' ∧
    length losses = n.
Proof.
  induction n as [|n IH]; intros i st Htl Hvl.
  - exists [], [], st. split_and!; [done | constructor | done].
  - destruct (run_epoch_step args writer tl vl tc vc st i Htl Hvl)
      as (ev_t & m1 & o1 & tloss & ev_v & m2 & vloss & sch & o2
          & Ht & Hv & Hs & He).
    edestruct (IH (S i)) as (rest & losses & st' & Hrest & Hrun & Hlen);
      [exact Htl | exact Hvl |].
    eexists _, ((tloss, vloss) :: losses), st'.
    split_and!; [| eapply epochs_step; eauto | by rewrite <- Hlen].
    cbn [List.seq]. rewrite for_each_cons_inr with (s' := _)
      by (rewrite He; reflexivity).
    rewrite He, Hrest. cbn [events result fst snd].
    f_equal. cbn [app]. f_equal. rewrite <- !app_assoc. cbn [app].
    f_equal. f_equal. rewrite <- !app_assoc. cbn [app]. f_equal. f_equal.
    by rewrite <- !app_assoc.
Qed.

Lemma pass_event_not_step_or_save evs :
  forallb is_pass_event evs = true ->
  scheduler_steps evs = [] ∧ saved_files evs = [].
Proof.
  induction evs as [|e evs IH]; [done|]. cbn [forallb].
  intros [He Hevs]%andb_prop. destruct (IH Hevs) as [IH1 IH2].
  unfold scheduler_steps, saved_files in *.
  destruct e; try discriminate He; simpl; by rewrite ?IH1, ?IH2.
Qed.

Lemma run_model_pass_events mdl ld crit writer epoch train opt verbose seq ml :
  forallb is_pass_event
    (events (run_model mdl ld crit writer epoch train opt verbose seq ml))
  = true.
Proof.
  rewrite run_model_eq. cbn [events fst forallb].
  rewrite pass_pass_events. by destruct train.
Qed.

Lemma plot_events_not_step_or_save args eps tls vls :
  scheduler_steps (plot_events args eps tls vls) = [] ∧
  saved_files (plot_events args eps tls vls) = [].
Proof. unfold plot_events. by destruct (plot args). Qed.

(** The scheduler steps and the saved files of a run of epochs are one per
    epoch: the step takes the validation loss, the file is the checkpoint
    name of the epoch's losses and number in the run directory. *)
Lemma epochs_run_steps_and_saves args writer tl vl tc vc i st evs losses st' :
  epochs_run args writer tl vl tc vc i st evs losses st' ->
  scheduler_steps evs = losses.*2 ∧
  saved_files evs
  = imap (λ k l, Join (Path (rundir args))
                   (checkpoint_name l.2 l.1 (i + k))) losses.
Proof.
  induction 1 as [|i st ev_t m1 o1 tloss ev_v m2 vloss sch o2 rest losses
                   st' Ht Hv Hs Hrun [IH1 IH2]]; [done|].
  pose proof (run_model_pass_events (ls_model st) tl tc writer (Some i) true
                (Some (ls_optimizer st)) (verbose args) (seq args)
                (multilabel args)) as Pt.
  pose proof (run_model_pass_events m1 vl vc writer (Some i) false None
                false (seq args) (multilabel args)) as Pv.
  rewrite Ht in Pt. rewrite Hv in Pv. cbn [events fst] in Pt, Pv.
  apply pass_event_not_step_or_save in Pt as [Pt1 Pt2].
  apply pass_event_not_step_or_save in Pv as [Pv1 Pv2].
  destruct (plot_events_not_step_or_save args (epochs_seen st ++ [i])
              (train_losses st ++ [tloss]) (valid_losses st ++ [vloss]))
    as [Pp1 Pp2].
  unfold scheduler_steps, saved_files in *.
  repeat (cbn [omap list_omap]; rewrite !omap_app).
  cbn [omap list_omap].
  rewrite Pt1, Pt2, Pv1, Pv2, Pp1, Pp2, IH1, IH2.
  cbn [app fmap list_fmap imap snd fst]. split; [done|].
  rewrite Nat.add_0_r. f_equal. apply imap_ext. intros k l _. cbn.
  do 2 f_equal. lia.
Qed.

(** *** train *)

Lemma lstm_args_same args :
  model (lstm_args args) = model args ∧
  optimizer (lstm_args args) = optimizer args ∧
  learning_rate (lstm_args args) = learning_rate args ∧
  weight_decay (lstm_args args) = weight_decay args ∧
  max_patience (lstm_args args) = max_patience args ∧
  factor (lstm_args args) = factor args ∧
  epochs (lstm_args args) = epochs args ∧
  rundir (lstm_args args) = rundir args.
Proof. unfold lstm_args. by destruct (decide _). Qed.

Lemma train_model_unsupported args writer :
  model_dict !! model args = None ->
  train args writer
  = ([EvLoadData], inl (ValueError (model args +:+ " model not supported"))).
Proof.
  intros Hm. unfold train. destruct (load_data args) as [[[tl vl] tel] rl].
  by destruct (decide (model_dict !! model args = None)).
Qed.

Lemma train_classes_differ args writer tl vl tel rl :
  load_data args = (tl, vl, tel, rl) ->
  model_dict !! model args ≠ None ->
  chained_eq (num_classes (loader_dataset tl))
    (num_classes (loader_dataset vl)) (num_classes (loader_dataset tel))
  = false ->
  train args writer
  = ([EvLoadData],
     inl (AssertionError "Different number of classes in data splits")).
Proof.
  intros Hl Hm Hc. unfold train. rewrite Hl.
  destruct (decide (model_dict !! model args = None)); [done|].
  cbn [mbind M_bind bind emit mret M_ret ret app]. by rewrite Hc.
Qed.

Lemma train_optimizer_unsupported args writer tl vl tel rl :
  load_data args = (tl, vl, tel, rl) ->
  model_dict !! model args ≠ None ->
  chained_eq (num_classes (loader_dataset tl))
    (num_classes (loader_dataset vl)) (num_classes (loader_dataset tel))
  = true ->
  optimizers !! optimizer args = None ->
  train args writer
  = ([EvLoadData;
      EvModelInit (model args) (num_classes (loader_dataset tl));
      EvPrint ("num classes:  "
               +:+ pretty (num_classes (loader_dataset tl)));
      EvCuda],
     inl (ValueError (optimizer args +:+ " optimizer not supported"))).
Proof.
  intros Hl Hm Hc Ho. unfold train. rewrite Hl.
  destruct (decide (model_dict !! model args = None)); [done|].
  cbn [mbind M_bind bind emit mret M_ret ret app]. rewrite Hc.
  destruct (lstm_args_same args) as (Em & Eo & _). rewrite !Em, !Eo.
  destruct (model_dict !! model args) as [cls|]; [|done].
  cbn [mbind M_bind bind emit mret M_ret ret app from_option].
  destruct (criteria _ _ _) as [tc vc].
  destruct (decide (optimizers !! optimizer args = None)); [|done].
  done.
Qed.

Lemma train_enters_loop args writer tl vl tel rl cls ocls :
  load_data args = (tl, vl, tel, rl) ->
  model_dict !! model args = Some cls ->
  chained_eq (num_classes (loader_dataset tl))
    (num_classes (loader_dataset vl)) (num_classes (loader_dataset tel))
  = true ->
  optimizers !! optimizer args = Some ocls ->
  let loop :=
    for_each
      (run_epoch (lstm_args args) writer tl vl
         (criteria (lstm_args args) tl vl).1
         (criteria (lstm_args args) tl vl).2)
      (range (epochs args))
      (train_init args cls ocls (num_classes (loader_dataset tl))) in
  train args writer
  = (setup_events args (num_classes (loader_dataset tl)) ++ events loop,
     match result loop with inl e => inl e | inr _ => inr tt end).
Proof.
  intros Hl Hm Hc Ho loop. subst loop. unfold train, train_init. rewrite Hl.
  destruct (decide (model_dict !! model args = None)) as [E|_];
    [by rewrite Hm in E|].
  cbn [mbind M_bind bind emit mret M_ret ret app]. rewrite Hc.
  destruct (lstm_args_same args)
    as (Em & Eo & Elr & Ewd & Emp & Ef & Ee & _).
  rewrite !Em, !Eo, !Elr, !Ewd, !Emp, !Ef, !Ee, Hm.
  cbn [mbind M_bind bind emit mret M_ret ret app from_option].
  destruct (criteria _ _ _) as [tc vc]. cbn [fst snd].
  destruct (decide (optimizers !! optimizer args = None)) as [E|_];
    [by rewrite Ho in E|].
  rewrite Ho.
  cbn [mbind M_bind bind emit mret M_ret ret app from_option].
  destruct (for_each _ _ _) as [l [e|st]];
    cbn [mbind M_bind bind mret M_ret ret events result fst snd];
    [done|].
  by rewrite app_nil_r.
Qed.

(** *** Checkpoint names *)

Lemma after_last_prefix c p : ∀ s r,
  after_last c s = Some r -> after_last c (p +:+ s) = Some r.
Proof.
  induction p as [|a p IH]; intros s r Hs; [done|].
  change (String a p +:+ s) with (String a (p +:+ s)).
  cbn [after_last]. by rewrite (IH _ _ Hs).
Qed.

Lemma pretty_N_go_no_h x : ∀ s,
  after_last "h" s = None -> after_last "h" (pretty_N_go x s) = None.
Proof.
  induction (N.lt_wf_0 x) as [x _ IH]; intros s Hs.
  assert (x = 0 ∨ 0 < x)%N as [->|Hx] by lia; [done|].
  rewrite pretty_N_go_step by done. apply IH; [by apply N.div_lt|].
  cbn [after_last]. rewrite Hs. unfold pretty_N_char.
  by repeat case_match.
Qed.

Lemma pretty_nat_no_h (n : nat) : after_last "h" (pretty n) = None.
Proof.
  unfold pretty, pretty_nat, pretty, pretty_N.
  case_decide; [done|]. by apply pretty_N_go_no_h.
Qed.

Lemma checkpoint_epoch_name v t i :
  checkpoint_epoch (checkpoint_name v t i) = Some (pretty (i + 1)%nat).
Proof.
  unfold checkpoint_epoch, checkpoint_name.
  do 4 apply after_last_prefix.
  generalize (pretty (i + 1)%nat), (pretty_nat_no_h (i + 1)).
  intros d Hd. simpl. change ("" +:+ d) with d. by rewrite Hd.
Qed.

Lemma checkpoint_name_epoch_inj v t i v' t' j :
  checkpoint_name v t i = checkpoint_name v' t' j -> i = j.
Proof.
  intros E. apply (f_equal checkpoint_epoch) in E.
  rewrite !checkpoint_epoch_name in E.
  injection E as E. apply (inj pretty) in E. lia.
Qed.


(** *** The loop inside train *)

Lemma chained_eq_true a b c : chained_eq a b c = true ↔ a = b ∧ b = c.
Proof.
  unfold chained_eq. rewrite andb_true_iff, !bool_decide_eq_true. done.
Qed.

Lemma train_runs_epochs args writer tl vl tel rl cls ocls :
  load_data args = (tl, vl, tel, rl) ->
  model_dict !! model args = Some cls ->
  optimizers !! optimizer args = Some ocls ->
  num_classes (loader_dataset tl) = num_classes (loader_dataset vl) ->
  num_classes (loader_dataset vl) = num_classes (loader_dataset tel) ->
  loader_batches tl ≠ [] ->
  loader_batches vl ≠ [] ->
  ∃ evs losses st',
    train args writer
    = (setup_events args (num_classes (loader_dataset tl)) ++ evs, inr tt) ∧
    epochs_run (lstm_args args) writer tl vl
      (criteria (lstm_args args) tl vl).1
      (criteria (lstm_args args) tl vl).2
      0 (train_init args cls ocls (num_classes (loader_dataset tl)))
      evs losses st' ∧
    length losses = Z.to_nat (epochs args).
Proof.
  intros Hl Hm Ho Hc1 Hc2 Htl Hvl.
  assert (Hc : chained_eq (num_classes (loader_dataset tl))
                 (num_classes (loader_dataset vl))
                 (num_classes (loader_dataset tel)) = true)
    by by apply chained_eq_true.
  destruct (run_epochs_ok (lstm_args args) writer tl vl
              (criteria (lstm_args args) tl vl).1
              (criteria (lstm_args args) tl vl).2
              (Z.to_nat (epochs args)) 0
              (train_init args cls ocls (num_classes (loader_dataset tl)))
              Htl Hvl) as (evs & losses & st' & Hloop & Hrun & Hlen).
  exists evs, losses, st'. split_and!; [|done|done].
  rewrite (train_enters_loop args writer tl vl tel rl cls ocls Hl Hm Hc Ho).
  unfold range. by rewrite Hloop.
Qed.



(** *** What the loop can raise *)

Lemma run_model_raises mdl ld crit writer epoch train opt verbose seq ml e :
  result (run_model mdl ld crit writer epoch train opt verbose seq ml)
  = inl e ->
  is_explicit e = false.
Proof.
  rewrite run_model_eq. cbn [result snd].
  destruct (result (for_each _ _ _)) as [e'|st] eqn:Hr.
  - intros [= <-]. by apply pass_raises in Hr as [msg ->].
  - unfold finish. destruct (avg_loss st); [|done].
    destruct (decide (num_batches st = 0)); by intros [= <-].
Qed.

Lemma run_epoch_raises args writer tl vl tc vc st i e :
  result (run_epoch args writer tl vl tc vc st i) = inl e ->
  is_explicit e = false.
Proof.
  unfold run_epoch. cbn [mbind M_bind bind emit].
  destruct (run_model (ls_model st) _ _ _ _ _ _ _ _ _)
    as [lt [et|[[m1 o1] tloss]]] eqn:Ht.
  { cbn [result snd]. intros [= <-].
    eapply run_model_raises. by rewrite Ht. }
  cbn [mbind M_bind bind emit].
  destruct (run_model m1 _ _ _ _ _ _ _ _ _)
    as [lv [ev|[[m2 o2] vloss]]] eqn:Hv.
  { cbn [result snd]. intros [= <-].
    eapply run_model_raises. by rewrite Hv. }
  cbn [mbind M_bind bind emit].
  destruct (scheduler_step _ _ _) as [sch o3].
  by destruct (plot args).
Qed.

Lemma run_epochs_raises args writer tl vl tc vc xs : ∀ st e,
  result (for_each (run_epoch args writer tl vl tc vc) xs st) = inl e ->
  is_explicit e = false.
Proof.
  induction xs as [|i xs IH]; intros st e; [done|].
  destruct (result (run_epoch args writer tl vl tc vc st i)) as [e1|st1]
    eqn:Hr.
  - rewrite (for_each_cons_inl _ _ _ _ _ Hr). intros [= <-].
    by apply run_epoch_raises in Hr.
  - rewrite (for_each_cons_inr _ _ _ _ _ Hr). apply IH.
Qed.

Lemma classes_agree_chained tl vl tel :
  chained_eq (num_classes (loader_dataset tl))
    (num_classes (loader_dataset vl)) (num_classes (loader_dataset tel))
  = true ↔ classes_agree tl vl tel.
Proof. apply chained_eq_true. Qed.

(** The four ways through the guards of [train]. *)
Lemma train_cases args writer tl vl tel rl :
  load_data args = (tl, vl, tel, rl) ->
  (model_dict !! model args = None ∧
   train args writer
   = ([EvLoadData],
      inl (ValueError (model args +:+ " model not supported")))) ∨
  (model_dict !! model args ≠ None ∧ ¬ classes_agree tl vl tel ∧
   train args writer
   = ([EvLoadData],
      inl (AssertionError "Different number of classes in data splits"))) ∨
  (model_dict !! model args ≠ None ∧ classes_agree tl vl tel ∧
   optimizers !! optimizer args = None ∧
   train args writer
   = ([EvLoadData;
       EvModelInit (model args) (num_classes (loader_dataset tl));
       EvPrint ("num classes:  "
                +:+ pretty (num_classes (loader_dataset tl)));
       EvCuda],
      inl (ValueError (optimizer args +:+ " optimizer not supported")))) ∨
  (model_dict !! model args ≠ None ∧ classes_agree tl vl tel ∧
   optimizers !! optimizer args ≠ None ∧
   ∀ e, result (train args writer) = inl e -> is_explicit e = false).
Proof.
  intros Hl.
  destruct (model_dict !! model args) as [cls|] eqn:Hm;
    [|left; split; [done|]; by apply train_model_unsupported].
  right.
  destruct (chained_eq (num_classes (loader_dataset tl))
              (num_classes (loader_dataset vl))
              (num_classes (loader_dataset tel))) eqn:Hc.
  2:{ left. split_and!; [done | |].
      - rewrite <- classes_agree_chained, Hc. done.
      - eapply train_classes_differ; eauto. by rewrite Hm. }
  right. apply classes_agree_chained in Hc as Hagree.
  destruct (optimizers !! optimizer args) as [ocls|] eqn:Ho.
  2:{ left. split_and!; [done | done | done |].
      eapply train_optimizer_unsupported; eauto. by rewrite Hm. }
  right. split_and!; [done | done | done |].
  intros e.
  rewrite (train_enters_loop args writer tl vl tel rl cls ocls Hl Hm Hc Ho).
  cbn [result snd].
  destruct (result (for_each _ _ _)) as [e'|st] eqn:Hr; [|done].
  intros [= <-]. by apply run_epochs_raises in Hr.
Qed.

(** *** __main__ *)

Lemma main_parse_error c e :
  parse_args c = inl e -> main c = ([], inl (SystemExit 2)).
Proof.
  unfold main, parse_args.
  by destruct (cl_datadir c), (cl_rundir c).
Qed.

Lemma main_eq c args :
  parse_args c = inr args ->
  let a := set_verbose false args in
  let writer := Some {| writer_comment := writer_comment_of a |} in
  main c
  = if decide (view a = "all") then
      (main_prefix a,
       inl (ValueError "Multiview not yet implemented for train script"))
    else (main_prefix a ++ events (train a writer), result (train a writer)).
Proof.
  intros Hp a writer. subst a writer. unfold main, main_prefix. rewrite Hp.
  cbn [mbind M_bind bind emit mret M_ret ret app].
  destruct (decide (view (set_verbose false args) = "all")) as [E|E];
    destruct (plot (set_verbose false args));
    cbn [mbind M_bind bind emit mret M_ret ret raise app];
    try done.
  all: by destruct (train _ _) as [l r].
Qed.

(** C1 (as the code has it): [train] raises [ValueError] exactly when the
    model name is not in the registry, or the model name is in the
    registry, the class counts of the train, valid and test splits agree
    and the optimizer name is not in the optimizer table.  The raise for
    the model name follows [load_data] only, so no model has been
    constructed; the raise for the optimizer name follows the model's
    construction and precedes any optimizer's. *)
Theorem train_value_error args writer tl vl tel rl :
  load_data args = (tl, vl, tel, rl) ->
  ((∃ msg, result (train args writer) = inl (ValueError msg))
   ↔ model_dict !! model args = None
     ∨ (classes_agree tl vl tel ∧ optimizers !! optimizer args = None)) ∧
  (model_dict !! model args = None ->
   train args writer
   = ([EvLoadData],
      inl (ValueError (model args +:+ " model not supported")))) ∧
  (model_dict !! model args ≠ None -> classes_agree tl vl tel ->
   optimizers !! optimizer args = None ->
   train args writer
   = ([EvLoadData;
       EvModelInit (model args) (num_classes (loader_dataset tl));
       EvPrint ("num classes:  "
                +:+ pretty (num_classes (loader_dataset tl)));
       EvCuda],
      inl (ValueError (optimizer args +:+ " optimizer not supported")))).
Proof.
  intros Hl.
  destruct (train_cases args writer tl vl tel rl Hl)
    as [(Hm & Ht)|[(Hm & Hc & Ht)|[(Hm & Hc & Ho & Ht)|(Hm & Hc & Ho & Ht)]]].
  - split_and!; [|done|done]. rewrite Ht. split; eauto.
  - split_and!; [|done|done]. rewrite Ht. cbn [result snd].
    split; [by intros [? [=]] | intros [?|[? _]]; done].
  - split_and!; [|done|done]. rewrite Ht. split; eauto.
  - split_and!; [|done|done].
    split; [|intros [?|[_ ?]]; done].
    intros [msg Hr]. by apply Ht in Hr.
Qed.

(** C2 (as the code has it): once [load_data] has returned the four
    loaders, [train] raises [AssertionError] exactly when the model name is
    in the registry and the class counts of the train, valid and test
    splits are not all equal; it then raises with the message "Different
    number of classes in data splits" and has done nothing but load the
    data.  The class count of the rad loader is not compared. *)
Theorem train_class_count_assertion args writer tl vl tel rl :
  load_data args = (tl, vl, tel, rl) ->
  ((∃ msg, result (train args writer) = inl (AssertionError msg))
   ↔ model_dict !! model args ≠ None ∧ ¬ classes_agree tl vl tel) ∧
  (model_dict !! model args ≠ None -> ¬ classes_agree tl vl tel ->
   train args writer
   = ([EvLoadData],
      inl (AssertionError "Different number of classes in data splits"))).
Proof.
  intros Hl.
  destruct (train_cases args writer tl vl tel rl Hl)
    as [(Hm & Ht)|[(Hm & Hc & Ht)|[(Hm & Hc & Ho & Ht)|(Hm & Hc & Ho & Ht)]]].
  - split; [|done]. rewrite Ht. cbn [result snd].
    split; [by intros [? [=]] | by intros [? _]].
  - split; [|done]. rewrite Ht. split; eauto.
  - split; [|done]. rewrite Ht. cbn [result snd].
    split; [by intros [? [=]] | by intros [_ ?]].
  - split; [|done]. split; [|by intros [_ ?]].
    intros [msg Hr]. by apply Ht in Hr.
Qed.

(** C7 (as the code has it): the script raises by a [raise] or [assert]
    statement of its own in exactly four cases: the view is [all], the
    model name is unsupported, the train, valid and test class counts
    disagree, or the optimizer name is unsupported. *)
Theorem main_explicit_errors c :
  (∃ e, result (main c) = inl e ∧ is_explicit e = true)
  ↔ ∃ args tl vl tel rl,
      parse_args c = inr args ∧
      load_data (set_verbose false args) = (tl, vl, tel, rl) ∧
      (view args = "all" ∨ model_dict !! model args = None
       ∨ ¬ classes_agree tl vl tel
       ∨ optimizers !! optimizer args = None).
Proof.
  destruct (parse_args c) as [e0|args] eqn:Hp.
  { rewrite (main_parse_error c e0 Hp). cbn [result snd].
    split; [by intros (e & [= <-] & ?) | by intros (? & ? & ? & ? & ? & ? & _)]. }
  rewrite (main_eq c args Hp).
  destruct (load_data (set_verbose false args)) as [[[tl vl] tel] rl] eqn:Hl.
  change (view (set_verbose false args)) with (view args).
  destruct (decide (view args = "all")) as [Hv|Hv].
  { cbn [result snd]. split; [|by eauto].
    intros _. exists args, tl, vl, tel, rl. eauto. }
  cbn [result snd].
  destruct (train_cases (set_verbose false args)
              (Some {| writer_comment :=
                         writer_comment_of (set_verbose false args) |})
              tl vl tel rl Hl)
    as [(Hm & Ht)|[(Hm & Hc & Ht)|[(Hm & Hc & Ho & Ht)|(Hm & Hc & Ho & Ht)]]];
    change (model (set_verbose false args)) with (model args) in *;
    change (optimizer (set_verbose false args)) with (optimizer args) in *.
  - rewrite Ht. split; [|by eauto].
    intros _. exists args, tl, vl, tel, rl. eauto.
  - rewrite Ht. split; [|by eauto].
    intros _. exists args, tl, vl, tel, rl. eauto 6.
  - rewrite Ht. split; [|by eauto].
    intros _. exists args, tl, vl, tel, rl. eauto 6.
  - split.
    + intros (e & Hr & He). apply Ht in Hr. congruence.
    + intros (? & ? & ? & ? & ? & [= <-] & Hl' & Hcase).
      rewrite Hl in Hl'. injection Hl' as <- <- <- <-.
      destruct Hcase as [?|[?|[?|?]]]; done.
Qed.


(** C10: the presence of [--verbose] changes nothing: with the flag set
    either way the script emits the same events (the same [args.json], the
    same printed lines, the same framework calls) and ends the same way. *)
Theorem verbose_flag_has_no_effect c present :
  main (set_cl_verbose present c) = main c.
Proof.
  unfold main, parse_args, set_cl_verbose. cbn [cl_datadir cl_rundir].
  by destruct (cl_datadir c), (cl_rundir c).
Qed.

(** ** Further properties of the passes *)

Lemma run_model_empty mdl ld crit writer epoch train opt verbose seq ml :
  loader_batches ld = [] ->
  run_model mdl ld crit writer epoch train opt verbose seq ml
  = ([mode_event train], inl (ZeroDivisionError "float division by zero")).
Proof. intros Hb. by rewrite run_model_eq, Hb. Qed.

(** X1: a training pass that is given no optimizer fails on the first batch:
    on a non-empty loader [run_model(train=True)] without an optimizer
    raises [AttributeError] at [optimizer.zero_grad()], having only put the
    model in training mode; no forward pass is made. *)
Theorem run_model_train_without_optimizer
    mdl ld crit writer epoch verbose seq ml :
  loader_batches ld ≠ [] ->
  run_model mdl ld crit writer epoch true None verbose seq ml
  = ([EvModuleTrain],
     inl (AttributeError "'NoneType' object has no attribute 'zero_grad'")).
Proof.
  intros Hne. rewrite run_model_eq.
  destruct (loader_batches ld) as [|b bs]; [done|].
  rewrite (for_each_cons_inl _ _ _ _
             (AttributeError "'NoneType' object has no attribute 'zero_grad'"))
    by done.
  done.
Qed.

Lemma run_batch_training ld crit train verbose seq st b st' :
  result (run_batch ld crit train verbose seq st b) = inr st' ->
  m_training (ps_model st') = m_training (ps_model st).
Proof.
  unfold run_batch.
  destruct train, verbose, (ps_optimizer st); batch_cases;
    intros [= <-]; done.
Qed.

Lemma pass_training ld crit train verbose seq bs : ∀ st st',
  result (for_each (run_batch ld crit train verbose seq) bs st) = inr st' ->
  m_training (ps_model st') = m_training (ps_model st).
Proof.
  induction bs as [|b bs IH]; intros st st'; [by intros [= <-]|].
  destruct (result (run_batch ld crit train verbose seq st b)) as [e|st1]
    eqn:Hr.
  - by rewrite (for_each_cons_inl _ _ _ _ _ Hr).
  - rewrite (for_each_cons_inr _ _ _ _ _ Hr). cbn [result snd].
    intros Hr'. apply IH in Hr' as ->. by apply run_batch_training in Hr.
Qed.

(** X2: a pass leaves the model in the mode it ran in: the model returned by
    an evaluation pass is in evaluation mode, the one returned by a training
    pass in training mode, whatever mode it was given in. *)
Theorem run_model_sets_mode mdl ld crit writer epoch train opt verbose seq ml :
  loader_batches ld ≠ [] ->
  (train = true -> is_Some opt) ->
  ∃ m' o' r,
    result (run_model mdl ld crit writer epoch train opt verbose seq ml)
    = inr (m', o', r) ∧
    m_training m' = train.
Proof.
  intros Hne Hopt.
  destruct (run_model_ok mdl ld crit writer epoch train opt verbose seq ml
              Hne Hopt) as (m' & o' & t & ts & _ & _ & Hr & _).
  exists m', o', (loss_mean t ts). split; [done|].
  rewrite run_model_eq in Hr. cbn [result snd] in Hr.
  destruct (result (for_each _ _ _)) as [e|st] eqn:Hp; [done|].
  apply pass_training in Hp. unfold finish in Hr.
  destruct (avg_loss st); [by destruct (decide _)|].
  injection Hr as <- _ _. by rewrite Hp.
Qed.

Lemma run_batch_printed ld crit train verbose seq st b :
  (train = true -> is_Some (ps_optimizer st)) ->
  printed (events (run_batch ld crit train verbose seq st b))
  = if train && verbose
    then batch_line
         <$> batch_losses crit
               (events (run_batch ld crit train verbose seq st b))
    else [].
Proof.
  intros Hopt. destruct train.
  - destruct (Hopt eq_refl) as [o Ho]. unfold run_batch. rewrite Ho.
    destruct verbose; batch_cases; reflexivity.
  - batch_cases; reflexivity.
Qed.

Lemma pass_printed ld crit train verbose seq bs : ∀ st,
  (train = true -> is_Some (ps_optimizer st)) ->
  printed (events (for_each (run_batch ld crit train verbose seq) bs st))
  = if train && verbose
    then batch_line
         <$> batch_losses crit
               (events (for_each (run_batch ld crit train verbose seq) bs st))
    else [].
Proof.
  induction bs as [|b bs IH]; intros st Hopt; [by destruct (train && verbose)|].
  destruct (run_batch_ok ld crit train verbose seq st b Hopt)
    as (st1 & _ & _ & Hr & _ & _ & _ & Hopt1).
  rewrite (for_each_cons_inr _ _ _ _ _ Hr). cbn [events fst].
  pose proof (run_batch_printed ld crit train verbose seq st b Hopt) as Hb.
  pose proof (IH st1 Hopt1) as Hrest.
  unfold printed, batch_losses, criterion_calls in *.
  rewrite !omap_app, Hb, Hrest.
  destruct (train && verbose); [|done].
  by rewrite !fmap_app.
Qed.

Lemma run_model_printed mdl ld crit writer epoch train opt verbose seq ml :
  (train = true -> is_Some opt) ->
  printed (events (run_model mdl ld crit writer epoch train opt verbose seq ml))
  = if train && verbose
    then batch_line
         <$> batch_losses crit
               (events (run_model mdl ld crit writer epoch train opt verbose
                          seq ml))
    else [].
Proof.
  intros Hopt. rewrite run_model_eq. cbn [events fst].
  pose proof (pass_printed ld crit train verbose seq (loader_batches ld)
                (pass_init mdl opt train) Hopt) as Hp.
  destruct train; exact Hp.
Qed.

(** X3: a pass prints only when it trains and is verbose, and then one line
    per batch, the formatted loss of that batch's criterion call; an
    evaluation pass and a quiet training pass print nothing. *)
Theorem run_model_prints mdl ld crit writer epoch train opt verbose seq ml :
  (train = true -> is_Some opt) ->
  let run := run_model mdl ld crit writer epoch train opt verbose seq ml in
  printed (events run)
  = if train && verbose then batch_line <$> batch_losses crit (events run)
    else [].
Proof. intros Hopt run. by apply run_model_printed. Qed.

(** ** Further properties of train *)

Lemma range_nonpos (n : Z) : (n ≤ 0)%Z -> range n = [].
Proof. intros Hn. unfold range. by rewrite Z2Nat.nonpos. Qed.

Lemma range_pos (n : Z) :
  (0 < n)%Z -> range n = 0%nat :: List.seq 1 (Z.to_nat n - 1).
Proof.
  intros Hn. unfold range.
  destruct (Z.to_nat n) as [|k] eqn:Hk; [lia|].
  cbn [List.seq]. by rewrite Nat.sub_succ, Nat.sub_0_r.
Qed.

Lemma run_epoch_empty_train args writer tl vl tc vc st i :
  loader_batches tl = [] ->
  run_epoch args writer tl vl tc vc st i
  = ([EvPrint ("Starting epoch " +:+ pretty i
               +:+ ". Time passed: " +:+ time_passed i);
      EvModuleTrain],
     inl (ZeroDivisionError "float division by zero")).
Proof.
  intros Htl. unfold run_epoch. cbn [mbind M_bind bind emit].
  by rewrite (run_model_empty _ tl _ _ _ _ _ _ _ _ Htl).
Qed.

Lemma run_epoch_empty_valid args writer tl vl tc vc st i :
  loader_batches tl ≠ [] ->
  loader_batches vl = [] ->
  ∃ ev_t m1 o1 tloss,
    run_model (ls_model st) tl tc writer (Some i) true
      (Some (ls_optimizer st)) (verbose args) (seq args) (multilabel args)
    = (ev_t, inr (m1, Some o1, tloss)) ∧
    run_epoch args writer tl vl tc vc st i
    = (EvPrint ("Starting epoch " +:+ pretty i
                +:+ ". Time passed: " +:+ time_passed i)
       :: ev_t
       ++ [EvPrint ("Average training loss " +:+ float_format_04f tloss);
           EvModuleEval],
       inl (ZeroDivisionError "float division by zero")).
Proof.
  intros Htl Hvl.
  destruct (run_model_train_ok (ls_model st) tl tc writer (Some i)
              (ls_optimizer st) (verbose args) (seq args) (multilabel args)
              Htl) as (ev_t & m1 & o1 & tloss & Ht).
  exists ev_t, m1, o1, tloss. split; [done|].
  unfold run_epoch. cbn [mbind M_bind bind emit].
  rewrite Ht. cbn [mbind M_bind bind emit default from_option id].
  by rewrite (run_model_empty _ vl _ _ _ _ _ _ _ _ Hvl).
Qed.

(** X4: with [args.epochs <= 0] the loop body never runs: once the guards
    have passed, [train] builds the model, the optimizer and the scheduler
    and returns; no pass is made and nothing is saved, even when the loaders
    are empty. *)
Theorem train_no_epochs args writer tl vl tel rl cls ocls :
  load_data args = (tl, vl, tel, rl) ->
  model_dict !! model args = Some cls ->
  optimizers !! optimizer args = Some ocls ->
  classes_agree tl vl tel ->
  (epochs args ≤ 0)%Z ->
  train args writer
  = (setup_events args (num_classes (loader_dataset tl)), inr tt).
Proof.
  intros Hl Hm Ho Hc He. apply classes_agree_chained in Hc.
  rewrite (train_enters_loop args writer tl vl tel rl cls ocls Hl Hm Hc Ho).
  rewrite (range_nonpos _ He). cbn [for_each mret M_ret ret events result
                                    fst snd].
  by rewrite app_nil_r.
Qed.

(** X5: with at least one epoch to run and a train loader that yields no
    batch, [train] fails in the first epoch: after the setup it prints the
    start line, puts the model in training mode and raises
    [ZeroDivisionError]; nothing is saved. *)
Theorem train_empty_train_loader args writer tl vl tel rl cls ocls :
  load_data args = (tl, vl, tel, rl) ->
  model_dict !! model args = Some cls ->
  optimizers !! optimizer args = Some ocls ->
  classes_agree tl vl tel ->
  (0 < epochs args)%Z ->
  loader_batches tl = [] ->
  train args writer
  = (setup_events args (num_classes (loader_dataset tl))
     ++ [EvPrint ("Starting epoch 0. Time passed: " +:+ time_passed 0);
         EvModuleTrain],
     inl (ZeroDivisionError "float division by zero")).
Proof.
  intros Hl Hm Ho Hc He Htl. apply classes_agree_chained in Hc.
  rewrite (train_enters_loop args writer tl vl tel rl cls ocls Hl Hm Hc Ho).
  rewrite (range_pos _ He).
  rewrite (for_each_cons_inl _ _ _ _
             (ZeroDivisionError "float division by zero"))
    by by rewrite run_epoch_empty_train.
  by rewrite run_epoch_empty_train.
Qed.


(** The outcome of the loop inside [train]. *)
Lemma train_loop_outcome args writer tl vl tc vc st (n : Z) :
  (result (for_each (run_epoch args writer tl vl tc vc) (range n) st)
   = inl (ZeroDivisionError "float division by zero")
   ∧ (0 < n)%Z ∧ (loader_batches tl = [] ∨ loader_batches vl = [])) ∨
  ((∃ st', result (for_each (run_epoch args writer tl vl tc vc) (range n) st)
           = inr st')
   ∧ ((n ≤ 0)%Z ∨ (loader_batches tl ≠ [] ∧ loader_batches vl ≠ []))).
Proof.
  destruct (decide (n ≤ 0)%Z) as [Hn|Hn].
  { right. rewrite (range_nonpos _ Hn). split; [by eexists | by left]. }
  assert (0 < n)%Z as Hpos by lia.
  destruct (loader_batches tl) as [|b bs] eqn:Htl.
  { left. rewrite (range_pos _ Hpos).
    rewrite (for_each_cons_inl _ _ _ _
               (ZeroDivisionError "float division by zero"))
      by by rewrite run_epoch_empty_train.
    split_and!; [done | done | by left]. }
  destruct (loader_batches vl) as [|b' bs'] eqn:Hvl.
  { left.
    destruct (run_epoch_empty_valid args writer tl vl tc vc st 0)
      as (? & ? & ? & ? & _ & Hepoch); [by rewrite Htl | done |].
    rewrite (range_pos _ Hpos).
    rewrite (for_each_cons_inl _ _ _ _
               (ZeroDivisionError "float division by zero"))
      by by rewrite Hepoch.
    split_and!; [done | done | by right]. }
  right.
  destruct (run_epochs_ok args writer tl vl tc vc (Z.to_nat n) 0 st)
    as (evs & losses & st' & Hloop & _); [by rewrite Htl | by rewrite Hvl |].
  split; [|by right]. exists st'. unfold range. by rewrite Hloop.
Qed.

(** X7: [train] returns exactly when both names are supported, the class
    counts of the train, valid and test splits agree, and there is no epoch
    to run or both the train and the valid loader yield batches; it ends in
    [ZeroDivisionError] exactly when the guards pass, there is an epoch to
    run and one of the two loaders is empty. *)
Theorem train_outcome args writer tl vl tel rl :
  load_data args = (tl, vl, tel, rl) ->
  (result (train args writer) = inr tt
   ↔ model_dict !! model args ≠ None ∧ classes_agree tl vl tel
     ∧ optimizers !! optimizer args ≠ None
     ∧ ((epochs args ≤ 0)%Z
        ∨ (loader_batches tl ≠ [] ∧ loader_batches vl ≠ []))) ∧
  ((∃ msg, result (train args writer) = inl (ZeroDivisionError msg))
   ↔ model_dict !! model args ≠ None ∧ classes_agree tl vl tel
     ∧ optimizers !! optimizer args ≠ None
     ∧ (0 < epochs args)%Z
     ∧ (loader_batches tl = [] ∨ loader_batches vl = [])).
Proof.
  intros Hl.
  destruct (train_cases args writer tl vl tel rl Hl)
    as [(Hm & Ht)|[(Hm & Hc & Ht)|[(Hm & Hc & Ho & Ht)|(Hm & Hc & Ho & _)]]].
  1-3: rewrite Ht; cbn [result snd]; split; (split; [|tauto]).
  1-6: try by intros [=]. 1-3: by intros [? [=]].
  destruct (model_dict !! model args) as [cls|] eqn:Em; [|done].
  destruct (optimizers !! optimizer args) as [ocls|] eqn:Eo; [|done].
  apply classes_agree_chained in Hc as Hc'.
  rewrite (train_enters_loop args writer tl vl tel rl cls ocls Hl Em Hc' Eo).
  cbn [result snd].
  destruct (train_loop_outcome (lstm_args args) writer tl vl
              (criteria (lstm_args args) tl vl).1
              (criteria (lstm_args args) tl vl).2
              (train_init args cls ocls (num_classes (loader_dataset tl)))
              (epochs args))
    as [(Hr & Hpos & Hempty)|([st' Hr] & Hfine)]; rewrite Hr.
  - split; split.
    + done.
    + intros (_ & _ & _ & [?|[? ?]]); [lia | by destruct Hempty].
    + intros _. by split_and!.
    + intros _. by eexists.
  - split; split.
    + intros _. by split_and!.
    + done.
    + by intros [? [=]].
    + intros (_ & _ & _ & Hpos & Hempty).
      destruct Hfine as [?|[? ?]]; [lia | by destruct Hempty].
Qed.

(** ** Further properties of the epoch loop *)



Lemma pass_event_not_plot evs :
  forallb is_pass_event evs = true ->
  plotted evs = [] ∧ savefig_files evs = [].
Proof.
  induction evs as [|e evs IH]; [done|]. cbn [forallb].
  intros [He Hevs]%andb_prop. destruct (IH Hevs) as [IH1 IH2].
  unfold plotted, savefig_files in *.
  destruct e; try discriminate He; simpl; by rewrite ?IH1, ?IH2.
Qed.

Lemma epochs_run_plots args writer tl vl tc vc i st evs losses st' :
  plot args = true ->
  epochs_run args writer tl vl tc vc i st evs losses st' ->
  plotted evs
  = mjoin (imap (λ k _,
             [(epochs_seen st ++ List.seq i (S k),
               train_losses st ++ take (S k) losses.*1, "train");
              (epochs_seen st ++ List.seq i (S k),
               valid_losses st ++ take (S k) losses.*2, "valid")]) losses) ∧
  savefig_files evs
  = replicate (length losses)
      (Join (Join (Path (rundir args)) "plots") "loss").
Proof.
  intros Hplot.
  induction 1 as [|i st ev_t m1 o1 tloss ev_v m2 vloss sch o2 rest losses
                   st' Ht Hv Hs Hrun [IH1 IH2]]; [done|].
  pose proof (run_model_pass_events (ls_model st) tl tc writer (Some i) true
                (Some (ls_optimizer st)) (verbose args) (seq args)
                (multilabel args)) as Pt.
  pose proof (run_model_pass_events m1 vl vc writer (Some i) false None
                false (seq args) (multilabel args)) as Pv.
  rewrite Ht in Pt. rewrite Hv in Pv. cbn [events fst] in Pt, Pv.
  apply pass_event_not_plot in Pt as [Pt1 Pt2].
  apply pass_event_not_plot in Pv as [Pv1 Pv2].
  cbn [train_losses valid_losses epochs_seen] in IH1.
  unfold plot_events. rewrite Hplot.
  unfold plotted, savefig_files in *.
  repeat (cbn [omap list_omap app]; rewrite !omap_app).
  cbn [omap list_omap app].
  rewrite Pt1, Pt2, Pv1, Pv2, IH1, IH2.
  cbn [app length replicate]. split; [|done].
  rewrite imap_cons. cbn [mjoin list_join app fmap list_fmap fst snd take].
  rewrite !take_0. do 2 f_equal. f_equal. apply imap_ext. intros k l _.
  cbn [compose List.seq]. by rewrite <- !app_assoc.
Qed.

Lemma plot_events_printed args eps tls vls :
  printed (plot_events args eps tls vls) = [].
Proof. unfold plot_events. by destruct (plot args). Qed.

Lemma epochs_run_printed args writer tl vl tc vc i st evs losses st' :
  verbose args = false ->
  epochs_run args writer tl vl tc vc i st evs losses st' ->
  printed evs = mjoin (imap (λ k l, epoch_lines (i + k) l) losses).
Proof.
  intros Hverbose.
  induction 1 as [|i st ev_t m1 o1 tloss ev_v m2 vloss sch o2 rest losses
                   st' Ht Hv Hs Hrun IH]; [done|].
  pose proof (run_model_printed (ls_model st) tl tc writer (Some i) true
                (Some (ls_optimizer st)) (verbose args) (seq args)
                (multilabel args)) as Pt.
  pose proof (run_model_printed m1 vl vc writer (Some i) false None
                false (seq args) (multilabel args)) as Pv.
  rewrite Ht, Hverbose in Pt. rewrite Hv in Pv.
  cbn [events fst andb] in Pt, Pv.
  specialize (Pt ltac:(eauto)). specialize (Pv ltac:(done)).
  pose proof (plot_events_printed args (epochs_seen st ++ [i])
                (train_losses st ++ [tloss]) (valid_losses st ++ [vloss]))
    as Pp.
  unfold printed in *.
  repeat (cbn [omap list_omap app]; rewrite !omap_app).
  cbn [omap list_omap app].
  rewrite Pt, Pv, Pp, IH. rewrite imap_cons.
  cbn [mjoin list_join app epoch_lines fst snd]. rewrite Nat.add_0_r.
  do 4 f_equal. apply imap_ext. intros k l _. cbn [compose].
  f_equal. lia.
Qed.

Lemma lstm_args_flags args :
  verbose (lstm_args args) = verbose args ∧
  plot (lstm_args args) = plot args.
Proof. unfold lstm_args. by destruct (decide _). Qed.


(** X10: the console output of a run that completes.  The script prints the
    class count once and then three lines per epoch: the start line, the
    average training loss and the average validation loss; it prints no
    per-batch line, since [__main__] has switched [verbose] off.  The losses
    printed are the ones the scheduler is stepped with and the checkpoints
    are named after. *)
Theorem main_console_output c args tl vl tel rl cls ocls :
  parse_args c = inr args ->
  view args ≠ "all" ->
  load_data (set_verbose false args) = (tl, vl, tel, rl) ->
  model_dict !! model args = Some cls ->
  optimizers !! optimizer args = Some ocls ->
  classes_agree tl vl tel ->
  loader_batches tl ≠ [] ->
  loader_batches vl ≠ [] ->
  ∃ losses : list (float * float),
    length losses = Z.to_nat (epochs args) ∧
    result (main c) = inr tt ∧
    printed (events (main c))
    = ("num classes:  " +:+ pretty (num_classes (loader_dataset tl)))
      :: mjoin (imap epoch_lines losses) ∧
    scheduler_steps (events (main c)) = losses.*2 ∧
    saved_files (events (main c))
    = imap (λ k l, Join (Path (rundir args)) (checkpoint_name l.2 l.1 k))
        losses.
Proof.
  intros Hp Hview Hl Hm Ho [Hc1 Hc2] Htl Hvl.
  set (a := set_verbose false args) in *.
  destruct (train_runs_epochs a
              (Some {| writer_comment := writer_comment_of a |})
              tl vl tel rl cls ocls Hl Hm Ho Hc1 Hc2 Htl Hvl)
    as (evs & losses & st' & Htrain & Hrun & Hlen).
  exists losses. rewrite (main_eq c args Hp). fold a.
  change (view a) with (view args).
  destruct (decide (view args = "all")) as [|_]; [done|].
  rewrite Htrain. cbn [events result fst snd].
  destruct (epochs_run_steps_and_saves _ _ _ _ _ _ _ _ _ _ _ Hrun)
    as [Hsteps Hsaves].
  destruct (lstm_args_flags a) as [Ev _].
  destruct (lstm_args_same a) as (_ & _ & _ & _ & _ & _ & _ & Er).
  pose proof (epochs_run_printed _ _ _ _ _ _ _ _ _ _ _
                ltac:(by rewrite Ev) Hrun) as Hprinted.
  rewrite Er in Hsaves.
  unfold main_prefix, setup_events, printed, scheduler_steps, saved_files in *.
  split_and!; [done | done | | |].
  all: destruct (plot a); cbn [app omap list_omap];
    rewrite ?omap_app; cbn [app omap list_omap].
  all: first [by rewrite Hprinted | by rewrite Hsteps | by rewrite Hsaves].
Qed.

(** ** What train and __main__ never do *)

Lemma for_each_events_forallb {S A} (P : event -> bool)
    (body : S -> A -> M S) xs : ∀ s,
  (∀ s x, forallb P (events (body s x)) = true) ->
  forallb P (events (for_each body xs s)) = true.
Proof.
  induction xs as [|x xs IH]; intros s Hbody; [done|].
  destruct (result (body s x)) as [e|s1] eqn:Hr.
  - rewrite (for_each_cons_inl _ _ _ _ _ Hr). apply Hbody.
  - rewrite (for_each_cons_inr _ _ _ _ _ Hr). cbn [events fst].
    rewrite forallb_app, Hbody, IH; done.
Qed.

Lemma pass_events_are_train_events plotting evs :
  forallb is_pass_event evs = true ->
  forallb (is_train_event plotting) evs = true.
Proof.
  induction evs as [|e evs IH]; [done|]. cbn [forallb].
  intros [He Hevs]%andb_prop. rewrite (IH Hevs), andb_true_r.
  by destruct e.
Qed.

Lemma run_epoch_event_kinds args writer tl vl tc vc st i :
  forallb (is_train_event (plot args))
    (events (run_epoch args writer tl vl tc vc st i)) = true.
Proof.
  unfold run_epoch. cbn [mbind M_bind bind emit].
  pose proof (run_model_pass_events (ls_model st) tl tc writer (Some i) true
                (Some (ls_optimizer st)) (verbose args) (seq args)
                (multilabel args)) as Pt.
  destruct (run_model (ls_model st) _ _ _ _ _ _ _ _ _)
    as [lt [et|[[m1 o1] tloss]]] eqn:Ht; cbn [events fst] in Pt;
    apply (pass_events_are_train_events (plot args)) in Pt.
  { cbn [events fst app forallb is_train_event is_pass_event]. exact Pt. }
  cbn [mbind M_bind bind emit].
  pose proof (run_model_pass_events m1 vl vc writer (Some i) false None false
                (seq args) (multilabel args)) as Pv.
  destruct (run_model m1 _ _ _ _ _ _ _ _ _)
    as [lv [ev|[[m2 o2] vloss]]] eqn:Hv; cbn [events fst] in Pv;
    apply (pass_events_are_train_events (plot args)) in Pv.
  { cbn [mbind M_bind bind events fst app forallb is_train_event
         is_pass_event].
    rewrite forallb_app, Pt. cbn [forallb is_train_event is_pass_event].
    exact Pv. }
  cbn [mbind M_bind bind emit].
  destruct (scheduler_step _ _ _) as [sch o3].
  destruct (plot args);
    cbn [mbind M_bind bind emit mret M_ret ret events fst app forallb
         is_train_event is_pass_event].
  all: rewrite forallb_app, Pt; cbn [forallb is_train_event is_pass_event];
    rewrite forallb_app, Pv; done.
Qed.

Lemma train_event_kinds args writer :
  forallb (is_train_event (plot args)) (events (train args writer)) = true.
Proof.
  destruct (load_data args) as [[[tl vl] tel] rl] eqn:Hl.
  destruct (train_cases args writer tl vl tel rl Hl)
    as [(Hm & Ht)|[(Hm & Hc & Ht)|[(Hm & Hc & Ho & Ht)|(Hm & Hc & Ho & _)]]];
    [by rewrite Ht..|].
  destruct (model_dict !! model args) as [cls|] eqn:Em; [|done].
  destruct (optimizers !! optimizer args) as [ocls|] eqn:Eo; [|done].
  apply classes_agree_chained in Hc.
  rewrite (train_enters_loop args writer tl vl tel rl cls ocls Hl Em Hc Eo).
  cbn [events fst]. rewrite forallb_app. apply andb_true_intro. split; [done|].
  apply for_each_events_forallb. intros st i.
  destruct (lstm_args_flags args) as [_ <-]. apply run_epoch_event_kinds.
Qed.

(** X11: without [--plot] the script never touches [matplotlib] and never
    creates the plots directory, however the run ends. *)
Theorem main_plots_only_on_request c :
  cl_plot c = false ->
  Forall (λ e, is_plot_event e = false ∧ ∀ dir, e ≠ EvMkdir dir)
    (events (main c)).
Proof.
  intros Hplot.
  destruct (parse_args c) as [e0|args] eqn:Hp.
  { by rewrite (main_parse_error c e0 Hp). }
  assert (Hp' : plot (set_verbose false args) = false).
  { unfold parse_args in Hp. destruct (cl_datadir c), (cl_rundir c);
      try discriminate Hp. injection Hp as <-. exact Hplot. }
  rewrite (main_eq c args Hp).
  pose proof (train_event_kinds (set_verbose false args)
                (Some {| writer_comment :=
                           writer_comment_of (set_verbose false args) |}))
    as Hk.
  rewrite Hp' in Hk. apply Is_true_true, forallb_True in Hk.
  assert (Hprefix : Forall (λ e, is_plot_event e = false
                                 ∧ ∀ dir, e ≠ EvMkdir dir)
                      (main_prefix (set_verbose false args))).
  { unfold main_prefix. rewrite Hp'. repeat constructor; done. }
  destruct (decide (view (set_verbose false args) = "all")); cbn [events fst];
    [done|].
  apply Forall_app. split; [done|].
  eapply Forall_impl; [exact Hk|]. intros e He.
  destruct e; try done; by apply Is_true_true in He.
Qed.



(** ** Further properties of the guards and of the parser *)

Lemma optimizers_lookup_None s :
  optimizers !! s = None ↔ s ≠ "adam" ∧ s ≠ "rmsprop".
Proof.
  unfold optimizers. rewrite lookup_insert_None, lookup_singleton_None.
  split; intros [? ?]; split; congruence.
Qed.

(** X13: the optimizer table knows the names [adam] and [rmsprop] and no
    other: when the model name is supported and the class counts agree,
    [train] raises "<name> optimizer not supported" exactly for an optimizer
    name that is neither. *)
Theorem train_optimizer_names args writer tl vl tel rl :
  load_data args = (tl, vl, tel, rl) ->
  model_dict !! model args ≠ None ->
  classes_agree tl vl tel ->
  result (train args writer)
  = inl (ValueError (optimizer args +:+ " optimizer not supported"))
  ↔ optimizer args ≠ "adam" ∧ optimizer args ≠ "rmsprop".
Proof.
  intros Hl Hm Hc. rewrite <- optimizers_lookup_None.
  destruct (train_cases args writer tl vl tel rl Hl)
    as [(Hm' & _)|[(_ & Hc' & _)|[(_ & _ & Ho & Ht)|(_ & _ & Ho & Ht)]]];
    [done | done | |].
  - by rewrite Ht.
  - split; [|done]. intros Hr. by apply Ht in Hr.
Qed.




Lemma py_opt_str_inj o1 o2 : py_opt_str o1 = py_opt_str o2 -> o1 = o2.
Proof. destruct o1, o2; by intros [=]; subst. Qed.

Lemma py_opt_int_inj o1 o2 : py_opt_int o1 = py_opt_int o2 -> o1 = o2.
Proof. destruct o1, o2; by intros [=]; subst. Qed.

Lemma vars_injective a b : vars a = vars b -> a = b.
Proof.
  destruct a, b. unfold vars.
  cbn [datadir rundir comment view multilabel no_fours seed model pretrained
       weighted_loss seq hidden_dim optimizer learning_rate weight_decay
       dropout batch_size epochs max_patience verbose plot factor toy rgb
       workers extension fix_num_slices num_slices fixing_method normalize
       scale horizontal_flip rotate shift reverse].
  intros Hv. injection Hv. intros.
  repeat match goal with
  | E : py_opt_str _ = py_opt_str _ |- _ => apply py_opt_str_inj in E
  | E : py_opt_int _ = py_opt_int _ |- _ => apply py_opt_int_inj in E
  end.
  by subst.
Qed.

(** X16: [args.json] holds the whole configuration of a run: the dictionary
    dumped determines the namespace ([vars] is injective), so two command
    lines whose runs write the same [args.json] run the same way: same
    events, same outcome. *)
Theorem args_json_determines_run c1 c2 a1 a2 :
  parse_args c1 = inr a1 ->
  parse_args c2 = inr a2 ->
  vars (set_verbose false a1) = vars (set_verbose false a2) ->
  set_verbose false a1 = set_verbose false a2 ∧ main c1 = main c2.
Proof.
  intros Hp1 Hp2 Hv. apply vars_injective in Hv. split; [done|].
  rewrite (main_eq c1 a1 Hp1), (main_eq c2 a2 Hp2). by rewrite Hv.
Qed.

(** ** How the epoch composes the passes *)

(** X17: the checkpoint of an epoch holds the weights that epoch's training
    pass produced: the evaluation pass and the scheduler step in between
    leave them as they are, and they are the weights the next epoch starts
    from. *)
Theorem run_epoch_saves_trained_weights args writer tl vl tc vc st i :
  loader_batches tl ≠ [] ->
  loader_batches vl ≠ [] ->
  ∃ ev_t m1 o1 tloss st',
    run_model (ls_model st) tl tc writer (Some i) true
      (Some (ls_optimizer st)) (verbose args) (seq args) (multilabel args)
    = (ev_t, inr (m1, Some o1, tloss)) ∧
    result (run_epoch args writer tl vl tc vc st i) = inr st' ∧
    saved_weights (events (run_epoch args writer tl vl tc vc st i))
    = [m_weights m1] ∧
    m_weights (ls_model st') = m_weights m1.
Proof.
  intros Htl Hvl.
  destruct (run_epoch_step args writer tl vl tc vc st i Htl Hvl)
    as (ev_t & m1 & o1 & tloss & ev_v & m2 & vloss & sch & o2
        & Ht & Hv & Hs & He).
  destruct (run_model_ok m1 vl vc writer (Some i) false None false (seq args)
              (multilabel args) Hvl)
    as (m' & o' & t & ts & _ & _ & Hr & _ & Hframe); [done|].
  rewrite Hv in Hr. cbn [result snd] in Hr. injection Hr as <- _ _.
  destruct (Hframe eq_refl) as (_ & Hw & _).
  eexists ev_t, m1, o1, tloss, _. rewrite He. cbn [events result fst snd].
  split_and!; [done | done | | by cbn [ls_model]].
  pose proof (run_model_pass_events (ls_model st) tl tc writer (Some i) true
                (Some (ls_optimizer st)) (verbose args) (seq args)
                (multilabel args)) as Pt.
  pose proof (run_model_pass_events m1 vl vc writer (Some i) false None
                false (seq args) (multilabel args)) as Pv.
  rewrite Ht in Pt. rewrite Hv in Pv. cbn [events fst] in Pt, Pv.
  assert (Hpass : ∀ evs, forallb is_pass_event evs = true ->
                         saved_weights evs = []).
  { induction evs as [|e evs IH]; [done|]. cbn [forallb].
    intros [He' Hevs]%andb_prop. unfold saved_weights in *.
    destruct e; try discriminate He'; exact (IH Hevs). }
  unfold saved_weights in *. unfold plot_events.
  destruct (plot args);
    repeat (cbn [omap list_omap app]; rewrite !omap_app);
    cbn [omap list_omap app]; rewrite (Hpass _ Pt), (Hpass _ Pv), Hw; done.
Qed.

Lemma plot_events_calls args eps tls vls :
  calls (plot_events args eps tls vls) = [].
Proof. unfold plot_events. by destruct (plot args). Qed.

Lemma epochs_run_calls args writer tl vl tc vc i st evs losses st' :
  epochs_run args writer tl vl tc vc i st evs losses st' ->
  calls evs
  = mjoin (replicate (length losses)
             (epoch_calls (seq args) (length (loader_batches tl))
                (length (loader_batches vl)))).
Proof.
  induction 1 as [|i st ev_t m1 o1 tloss ev_v m2 vloss sch o2 rest losses
                   st' Ht Hv Hs Hrun IH]; [done|].
  pose proof (run_model_calls (ls_model st) tl tc writer (Some i) true
                (Some (ls_optimizer st)) (verbose args) (seq args)
                (multilabel args) ltac:(eauto)) as Pt.
  pose proof (run_model_calls m1 vl vc writer (Some i) false None
                false (seq args) (multilabel args) ltac:(done)) as Pv.
  rewrite Ht in Pt. rewrite Hv in Pv. cbn [events fst] in Pt, Pv.
  pose proof (plot_events_calls args (epochs_seen st ++ [i])
                (train_losses st ++ [tloss]) (valid_losses st ++ [vloss]))
    as Pp.
  unfold calls in *.
  repeat (cbn [omap list_omap app call_of]; rewrite !omap_app).
  cbn [omap list_omap app call_of].
  rewrite Pt, Pv, Pp, IH. cbn [length replicate mjoin list_join app].
  unfold epoch_calls. by rewrite <- app_assoc.
Qed.

Lemma lstm_args_seq args : seq (lstm_args args) = effective_seq args.
Proof. unfold lstm_args, effective_seq. by destruct (decide _). Qed.

(** X18: the framework calls of a run that completes are, epoch after epoch,
    a training pass over the train loader and an evaluation pass over the
    valid loader, each batch taking the calls of [batch_calls].  For the
    architectures [lrcn] and [mtolstm] every batch starts from a fresh hidden
    state whatever [--seq] said, since [train] overrides [args.seq]; for any
    other architecture [--seq] decides. *)
Theorem train_framework_calls args writer tl vl tel rl cls ocls :
  load_data args = (tl, vl, tel, rl) ->
  model_dict !! model args = Some cls ->
  optimizers !! optimizer args = Some ocls ->
  classes_agree tl vl tel ->
  loader_batches tl ≠ [] ->
  loader_batches vl ≠ [] ->
  calls (events (train args writer))
  = mjoin (replicate (Z.to_nat (epochs args))
             (epoch_calls (effective_seq args) (length (loader_batches tl))
                (length (loader_batches vl)))) ∧
  (model args = "lrcn" ∨ model args = "mtolstm" ->
   effective_seq args = Some "lstm") ∧
  (¬ (model args = "lrcn" ∨ model args = "mtolstm") ->
   effective_seq args = seq args).
Proof.
  intros Hl Hm Ho [Hc1 Hc2] Htl Hvl.
  destruct (train_runs_epochs args writer tl vl tel rl cls ocls
              Hl Hm Ho Hc1 Hc2 Htl Hvl)
    as (evs & losses & st' & Htrain & Hrun & Hlen).
  split_and!.
  - rewrite Htrain. cbn [events fst setup_events app].
    apply epochs_run_calls in Hrun.
    rewrite lstm_args_seq, Hlen in Hrun. exact Hrun.
  - intros Hlstm. unfold effective_seq. by destruct (decide _).
  - intros Hother. unfold effective_seq. by destruct (decide _).
Qed.

(** X19: with [--plot], the directory [__main__] creates is the one [train]
    saves the figure into: a run that completes creates [plots] in the run
    directory once, before training, and every epoch saves [loss] inside
    it. *)
Theorem main_plot_directory c args tl vl tel rl cls ocls :
  parse_args c = inr args ->
  view args ≠ "all" ->
  load_data (set_verbose false args) = (tl, vl, tel, rl) ->
  model_dict !! model args = Some cls ->
  optimizers !! optimizer args = Some ocls ->
  classes_agree tl vl tel ->
  loader_batches tl ≠ [] ->
  loader_batches vl ≠ [] ->
  plot args = true ->
  let dir := Join (Path (rundir args)) "plots" in
  mkdirs (events (main c)) = [dir] ∧
  savefig_files (events (main c))
  = replicate (Z.to_nat (epochs args)) (Join dir "loss") ∧
  ∃ before after,
    events (main c) = before ++ EvMkdir dir :: EvSummaryWriter
                        (writer_comment_of (set_verbose false args))
                      :: EvLoadData :: after.
Proof.
  intros Hp Hview Hl Hm Ho [Hc1 Hc2] Htl Hvl Hplot dir. subst dir.
  set (a := set_verbose false args) in *.
  destruct (train_runs_epochs a
              (Some {| writer_comment := writer_comment_of a |})
              tl vl tel rl cls ocls Hl Hm Ho Hc1 Hc2 Htl Hvl)
    as (evs & losses & st' & Htrain & Hrun & Hlen).
  rewrite (main_eq c args Hp). fold a.
  change (view a) with (view args).
  destruct (decide (view args = "all")) as [|_]; [done|].
  rewrite Htrain. cbn [events fst].
  destruct (lstm_args_flags a) as [_ Ep].
  destruct (lstm_args_same a) as (_ & _ & _ & _ & _ & _ & _ & Er).
  destruct (epochs_run_plots _ _ _ _ _ _ _ _ _ _ _
              ltac:(by rewrite Ep) Hrun) as [_ Hfigs].
  rewrite Er, Hlen in Hfigs.
  pose proof (train_event_kinds a
                (Some {| writer_comment := writer_comment_of a |})) as Hk.
  rewrite Htrain in Hk. cbn [events fst] in Hk.
  rewrite forallb_app in Hk. apply andb_prop in Hk as [_ Hk].
  assert (Hmk : mkdirs evs = []).
  { clear -Hk. induction evs as [|e evs IH]; [done|]. cbn [forallb] in Hk.
    apply andb_prop in Hk as [He Hevs]. unfold mkdirs in *.
    destruct e; cbn in He; try discriminate He; exact (IH Hevs). }
  unfold main_prefix, setup_events, mkdirs, savefig_files in *.
  change (plot a) with (plot args). rewrite Hplot.
  change (rundir a) with (rundir args) in *.
  split_and!.
  - cbn [app omap list_omap]. by rewrite Hmk.
  - cbn [app omap list_omap]. by rewrite Hfigs.
  - by eexists [_; _; _; _], _.
Qed.
End Facts.

(** * The theorems at work on the concrete framework *)

Import Toy.


Lemma run_model_empty_loader_witness :
  result (run_model (R := repo_ok) toy_module (toy_loader 2 []) 1 None None
            false None false None false)
  = inl (ZeroDivisionError "float division by zero").
Proof.
  apply (run_model_empty_loader (R := repo_ok) toy_module (toy_loader 2 [])
           1 None None false None false None false).
  reflexivity.
Defined.



(** The files of that run. *)
Example checkpoint_files_of_toy_run :
  saved_files (events (train (R := repo_ok) toy_args None))
  = [Join (Path "runs") "val6_train1_epoch1";
     Join (Path "runs") "val66_train6_epoch2"].
Proof. vm_compute. reflexivity. Qed.

Lemma train_value_error_witness :
  (∃ msg, result (train (R := repo_ok) (args_with None (Some "sgd") None) None)
          = inl (ValueError msg))
  ↔ model_dict (Repo := repo_ok) !! "alexnet" = None
    ∨ (classes_agree (toy_loader 2 [(1, 2); (3, 4)]) (toy_loader 2 [(5, 6)])
         (toy_loader 2 [])
       ∧ optimizers !! "sgd" = None).
Proof.
  exact (proj1 (train_value_error (R := repo_ok)
                  (args_with None (Some "sgd") None) None
                  (toy_loader 2 [(1, 2); (3, 4)]) (toy_loader 2 [(5, 6)])
                  (toy_loader 2 []) (toy_loader 2 []) eq_refl)).
Defined.

(** C1 as worded fails: with an unsupported optimizer name and disagreeing
    class counts [train] raises [AssertionError], not [ValueError]; and with
    supported names and disagreeing class counts it raises all the same. *)
Lemma train_value_error_counterexample :
  ¬ (∀ args writer,
       (∃ msg, result (train (R := repo_valid) args writer)
               = inl (ValueError msg))
       ↔ model_dict (Repo := repo_valid) !! model args = None
         ∨ optimizers !! optimizer args = None) ∧
  ¬ (∀ args writer,
       (∃ e, result (train (R := repo_valid) args writer) = inl e)
       ↔ model_dict (Repo := repo_valid) !! model args = None
         ∨ optimizers !! optimizer args = None).
Proof.
  split; intros Hclaim.
  - destruct (Hclaim (args_with None (Some "sgd") None) None) as [_ Hraise].
    destruct Hraise as [msg Hmsg]; [by right|].
    vm_compute in Hmsg. discriminate Hmsg.
  - destruct (Hclaim toy_args None) as [Hnames _].
    destruct Hnames as [Hm|Ho].
    + eexists. vm_compute. reflexivity.
    + vm_compute in Hm. discriminate Hm.
    + vm_compute in Ho. discriminate Ho.
Qed.

Lemma train_class_count_assertion_witness :
  (∃ msg, result (train (R := repo_valid) toy_args None)
          = inl (AssertionError msg))
  ↔ model_dict (Repo := repo_valid) !! "alexnet" ≠ None
    ∧ ¬ classes_agree (toy_loader 2 [(1, 2); (3, 4)]) (toy_loader 3 [(5, 6)])
          (toy_loader 2 []).
Proof.
  exact (proj1 (train_class_count_assertion (R := repo_valid) toy_args None
                  (toy_loader 2 [(1, 2); (3, 4)]) (toy_loader 3 [(5, 6)])
                  (toy_loader 2 []) (toy_loader 2 []) eq_refl)).
Defined.

(** C2 as worded fails twice: a rad split with another class count passes
    the assertion, and with an unsupported model name the assertion is never
    reached, so disagreeing splits end in [ValueError]. *)
Lemma train_class_count_assertion_counterexample :
  ¬ (∀ args writer tl vl tel rl,
       load_data (Repo := repo_rad) args = (tl, vl, tel, rl) ->
       ¬ (num_classes (loader_dataset tl) = num_classes (loader_dataset vl)
          ∧ num_classes (loader_dataset vl) = num_classes (loader_dataset tel)
          ∧ num_classes (loader_dataset tel) = num_classes (loader_dataset rl)) ->
       result (train (R := repo_rad) args writer)
       = inl (AssertionError "Different number of classes in data splits")) ∧
  ¬ (∀ args writer tl vl tel rl,
       load_data (Repo := repo_valid) args = (tl, vl, tel, rl) ->
       ¬ classes_agree tl vl tel ->
       result (train (R := repo_valid) args writer)
       = inl (AssertionError "Different number of classes in data splits")).
Proof.
  split; intros Hclaim.
  - specialize (Hclaim toy_args None _ _ _ _ eq_refl).
    assert (Hr := Hclaim ltac:(intros (_ & _ & E); vm_compute in E;
                               discriminate E)).
    vm_compute in Hr. discriminate Hr.
  - specialize (Hclaim (args_with (Some "resnet") None None) None
                  _ _ _ _ eq_refl).
    assert (Hr := Hclaim ltac:(intros [E _]; vm_compute in E;
                               discriminate E)).
    vm_compute in Hr. discriminate Hr.
Qed.

(** C7 as worded fails: with [--view all] and nothing else amiss the script
    raises [ValueError] by its own [raise]. *)
Lemma main_explicit_errors_counterexample :
  ¬ (∀ c args tl vl tel rl e,
       parse_args c = inr args ->
       load_data (Repo := repo_ok) (set_verbose false args)
       = (tl, vl, tel, rl) ->
       result (main (R := repo_ok) c) = inl e ->
       is_explicit e = true ->
       model_dict (Repo := repo_ok) !! model args = None
       ∨ optimizers !! optimizer args = None
       ∨ ¬ classes_agree tl vl tel).
Proof.
  intros Hclaim.
  destruct (Hclaim (toy_cmdline_with None None (Some "all")) _ _ _ _ _
              (ValueError "Multiview not yet implemented for train script")
              eq_refl eq_refl) as [Hm|[Ho|Hc]].
  - vm_compute. reflexivity.
  - reflexivity.
  - vm_compute in Hm. discriminate Hm.
  - vm_compute in Ho. discriminate Ho.
  - apply Hc. split; vm_compute; reflexivity.
Qed.


(** ** The further properties at work *)

Lemma run_model_train_without_optimizer_witness :
  run_model (R := repo_ok) toy_module (toy_loader 2 [(1, 2); (3, 4)]) 1 None
    None true None false None false
  = ([EvModuleTrain],
     inl (AttributeError "'NoneType' object has no attribute 'zero_grad'")).
Proof.
  apply (run_model_train_without_optimizer (R := repo_ok) toy_module
           (toy_loader 2 [(1, 2); (3, 4)]) 1 None None false None false).
  discriminate.
Defined.

Lemma run_model_sets_mode_witness :
  ∃ m' o' r,
    result (run_model (R := repo_ok) toy_module
              (toy_loader 2 [(1, 2); (3, 4)]) 1 None None false None false
              None false)
    = inr (m', o', r) ∧
    m_training m' = false.
Proof.
  apply (run_model_sets_mode (R := repo_ok) toy_module
           (toy_loader 2 [(1, 2); (3, 4)]) 1 None None false None false None
           false); discriminate.
Defined.

Lemma run_model_prints_witness :
  printed (events (run_model (R := repo_ok) toy_module
                     (toy_loader 2 [(1, 2); (3, 4)]) 1 None None true
                     (Some 0) true None false))
  = batch_line
    <$> batch_losses 1
          (events (run_model (R := repo_ok) toy_module
                     (toy_loader 2 [(1, 2); (3, 4)]) 1 None None true
                     (Some 0) true None false)).
Proof.
  apply (run_model_prints (R := repo_ok) toy_module
           (toy_loader 2 [(1, 2); (3, 4)]) 1 None None true (Some 0) true
           None false).
  intros _. by exists 0.
Defined.

(** The lines of that verbose pass. *)
Example printed_lines_of_verbose_pass :
  printed (events (run_model (R := repo_ok) toy_module
                     (toy_loader 2 [(1, 2); (3, 4)]) 1 None None true
                     (Some 0) true None false))
  = ["Training batch loss: 0"; "Training batch loss: 2"].
Proof. vm_compute. reflexivity. Qed.

Lemma train_no_epochs_witness :
  train (R := repo_no_train) (namespace_of (toy_cmdline_epochs 0)) None
  = (setup_events (namespace_of (toy_cmdline_epochs 0)) 2, inr tt).
Proof.
  apply (train_no_epochs (R := repo_no_train)
           (namespace_of (toy_cmdline_epochs 0)) None
           (toy_loader 2 []) (toy_loader 2 [(5, 6)])
           (toy_loader 2 []) (toy_loader 2 []) tt true).
  - reflexivity.
  - reflexivity.
  - reflexivity.
  - split; reflexivity.
  - discriminate.
Defined.

Lemma train_empty_train_loader_witness :
  train (R := repo_no_train) toy_args None
  = (setup_events toy_args 2
     ++ [EvPrint ("Starting epoch 0. Time passed: " +:+ "0:00:00");
         EvModuleTrain],
     inl (ZeroDivisionError "float division by zero")).
Proof.
  apply (train_empty_train_loader (R := repo_no_train) toy_args None
           (toy_loader 2 []) (toy_loader 2 [(5, 6)])
           (toy_loader 2 []) (toy_loader 2 []) tt true).
  - reflexivity.
  - reflexivity.
  - reflexivity.
  - split; reflexivity.
  - reflexivity.
  - reflexivity.
Defined.


Lemma train_outcome_witness :
  result (train (R := repo_ok) toy_args None) = inr tt
  ↔ model_dict (Repo := repo_ok) !! "alexnet" ≠ None
    ∧ classes_agree (toy_loader 2 [(1, 2); (3, 4)]) (toy_loader 2 [(5, 6)])
        (toy_loader 2 [])
    ∧ optimizers !! "adam" ≠ None
    ∧ ((2 ≤ 0)%Z
       ∨ (loader_batches (toy_loader 2 [(1, 2); (3, 4)]) ≠ []
          ∧ loader_batches (toy_loader 2 [(5, 6)]) ≠ [])).
Proof.
  exact (proj1 (train_outcome (R := repo_ok) toy_args None
                  (toy_loader 2 [(1, 2); (3, 4)]) (toy_loader 2 [(5, 6)])
                  (toy_loader 2 []) (toy_loader 2 []) eq_refl)).
Defined.



(** The series drawn in that run. *)
Example plotted_series_of_toy_run :
  plotted (events (train (R := repo_ok) (namespace_of toy_cmdline_plot) None))
  = [([0%nat], [Fin 1], "train"); ([0%nat], [Fin 6], "valid");
     ([0%nat; 1%nat], [Fin 1; Fin 6], "train");
     ([0%nat; 1%nat], [Fin 6; Fin 66], "valid")].
Proof. vm_compute. reflexivity. Qed.

Lemma main_console_output_witness :
  ∃ losses : list (float * float),
    length losses = 2%nat ∧
    result (main (R := repo_ok) toy_cmdline) = inr tt ∧
    printed (events (main (R := repo_ok) toy_cmdline))
    = "num classes:  2" :: mjoin (imap (epoch_lines (R := repo_ok)) losses).
Proof.
  edestruct (main_console_output (R := repo_ok) toy_cmdline toy_args
               (toy_loader 2 [(1, 2); (3, 4)]) (toy_loader 2 [(5, 6)])
               (toy_loader 2 []) (toy_loader 2 []) tt true)
    as (losses & Hlen & Hres & Hprinted & _).
  - reflexivity.
  - discriminate.
  - reflexivity.
  - reflexivity.
  - reflexivity.
  - split; reflexivity.
  - discriminate.
  - discriminate.
  - exists losses. split_and!; assumption.
Defined.

(** The console output of that run. *)
Example console_output_of_toy_run :
  printed (events (main (R := repo_ok) toy_cmdline))
  = ["num classes:  2";
     "Starting epoch 0. Time passed: 0:00:00";
     "Average training loss 1"; "Average validation loss 6";
     "Starting epoch 1. Time passed: 0:00:00";
     "Average training loss 6"; "Average validation loss 66"].
Proof. vm_compute. reflexivity. Qed.

Lemma main_plots_only_on_request_witness :
  Forall (λ e, is_plot_event e = false ∧ ∀ dir, e ≠ EvMkdir dir)
    (events (main (R := repo_ok) toy_cmdline)).
Proof.
  apply (main_plots_only_on_request (R := repo_ok) toy_cmdline). reflexivity.
Defined.


Lemma train_optimizer_names_witness :
  result (train (R := repo_ok) (args_with None (Some "sgd") None) None)
  = inl (ValueError "sgd optimizer not supported")
  ↔ "sgd" ≠ "adam" ∧ "sgd" ≠ "rmsprop".
Proof.
  apply (train_optimizer_names (R := repo_ok)
           (args_with None (Some "sgd") None) None
           (toy_loader 2 [(1, 2); (3, 4)]) (toy_loader 2 [(5, 6)])
           (toy_loader 2 []) (toy_loader 2 [])).
  - reflexivity.
  - vm_compute. discriminate.
  - split; reflexivity.
Defined.

Lemma args_json_determines_run_witness :
  main (R := repo_ok) (set_cl_verbose true toy_cmdline)
  = main (R := repo_ok) toy_cmdline.
Proof.
  exact (proj2 (args_json_determines_run (R := repo_ok)
                  (set_cl_verbose true toy_cmdline) toy_cmdline
                  _ _ eq_refl eq_refl eq_refl)).
Defined.

Lemma run_epoch_saves_trained_weights_witness :
  ∃ w,
    saved_weights
      (events (run_epoch (R := repo_ok) toy_args None
                 (toy_loader 2 [(1, 2); (3, 4)]) (toy_loader 2 [(5, 6)]) 1 1
                 (train_init (R := repo_ok) toy_args tt true 2) 0))
    = [w].
Proof.
  edestruct (run_epoch_saves_trained_weights (R := repo_ok) toy_args None
               (toy_loader 2 [(1, 2); (3, 4)]) (toy_loader 2 [(5, 6)]) 1 1
               (train_init (R := repo_ok) toy_args tt true 2) 0)
    as (ev_t & m1 & o1 & tloss & st' & _ & _ & Hsaved & _).
  - discriminate.
  - discriminate.
  - exists (m_weights m1). exact Hsaved.
Defined.

Lemma train_framework_calls_witness :
  calls (events (train (R := repo_ok) toy_args None))
  = mjoin (replicate 2 (epoch_calls None 2 1)).
Proof.
  refine (proj1 (train_framework_calls (R := repo_ok) toy_args None
                   (toy_loader 2 [(1, 2); (3, 4)]) (toy_loader 2 [(5, 6)])
                   (toy_loader 2 []) (toy_loader 2 []) tt true
                   eq_refl eq_refl eq_refl _ _ _)).
  - split; reflexivity.
  - discriminate.
  - discriminate.
Defined.

Lemma main_plot_directory_witness :
  mkdirs (events (main (R := repo_ok) toy_cmdline_plot))
  = [Join (Path "runs") "plots"] ∧
  savefig_files (events (main (R := repo_ok) toy_cmdline_plot))
  = replicate 2 (Join (Join (Path "runs") "plots") "loss").
Proof.
  edestruct (main_plot_directory (R := repo_ok) toy_cmdline_plot
               (namespace_of toy_cmdline_plot)
               (toy_loader 2 [(1, 2); (3, 4)]) (toy_loader 2 [(5, 6)])
               (toy_loader 2 []) (toy_loader 2 []) tt true)
    as (Hmk & Hfigs & _).
  - reflexivity.
  - discriminate.
  - reflexivity.
  - reflexivity.
  - reflexivity.
  - split; reflexivity.
  - discriminate.
  - discriminate.
  - reflexivity.
  - split; assumption.
Defined.
